(** * The MathJax bridge of ChromeVox (chromevox/injected/mathjax.js)

    A shallow embedding of the page-side bridge [cvox.MathJax]: the message
    channel it owns, the dispatcher [execMessage], the six command handlers
    and the closures they hand to the external collaborator
    [cvox.MathJaxExternalUtil].

    JavaScript values are a small inductive type, objects are finite maps
    from property names to values.  The code is written in a state and
    exception monad over a [World] that records what the bridge asks of its
    environment: messages posted on ports, broadcasts on [window], and calls
    into [cvox.MathJaxExternalUtil]. *)

From stdpp Require Import gmap strings list fin_maps.

Local Open Scope string_scope.
Local Open Scope list_scope.

(** ** JavaScript values *)

(** The values that travel over a message port.  Numbers are carried
    opaquely (the bridge never computes with them). *)
#[warnings="-register-all"] Inductive value : Type :=
| VUndefined
| VNull
| VBool (b : bool)
| VNumber (n : Z)
| VString (s : string)
| VObject (fields : gmap string value).

Inductive error : Type :=
| TypeError
| DataCloneError.

(** ** Channels and ports *)

(** A [MessageChannel] object, identified by its creation index. *)
Record MessageChannel : Type := Channel { channel_index : nat }.

Inductive MessagePort : Type :=
| port1 (c : MessageChannel)
| port2 (c : MessageChannel).

#[global] Instance MessageChannel_eq_dec : EqDecision MessageChannel.
Proof. solve_decision. Defined.
#[global] Instance MessagePort_eq_dec : EqDecision MessagePort.
Proof. solve_decision. Defined.

(** ** Closures

    The bridge builds three kinds of function values and hands them to its
    collaborators.  They are kept as data (the captured variables); [call_callback]
    and [call_continuation] below give their bodies. *)

(** [function(mml, id) {...}] returned by [getMathmlCallback_] (l.128-131). *)
Inductive callback : Type :=
| MathmlCallback (callbackId : value).

(** [function(mml) {...}] of [texToMml] (l.153-155) and of
    [asciiMathToMml] (l.168-170). *)
Inductive continuation : Type :=
| TexToMmlContinuation (callbackId cvoxId : value)
| AsciiMathToMmlContinuation (callbackId cvoxId : value).

(** [function(evt) {...}] installed by [initMessage] (l.49-51). *)
Inductive listener : Type :=
| ExecMessageListener.

(** ** What the bridge asks of its environment *)

Inductive effect : Type :=
(* port.onmessage = l *)
| SetOnmessage (p : MessagePort) (l : listener)
(* window.postMessage(a1, a2, a3), arguments in the order the source gives them *)
| WindowPostMessage (message : value) (ports : list MessagePort) (target : value)
(* port.postMessage(message) *)
| PortPostMessage (p : MessagePort) (message : value)
(* calls into cvox.MathJaxExternalUtil *)
| ExtIsActive
| ExtGetAllJax (f : callback)
| ExtRegisterSignal (f : callback) (signal : value)
| ExtInjectConfigScript
| ExtInjectLoadScript
| ExtTexToMml (tex display : value) (k : continuation)
| ExtAsciiMathToMml (asciiMath display : value) (k : continuation).

(** The six command handlers, with the arguments they were entered with. *)
Inductive handler_call : Type :=
| Enter_isActive (callbackId : value)
| Enter_getAllJax (callbackId : value)
| Enter_asciiMathToMml (callbackId asciiMath cvoxId : value)
| Enter_injectScripts
| Enter_registerSignal (callbackId signal : value)
| Enter_texToMml (callbackId tex cvoxId : value).

(** Modelled from the spec: [cvox.MathJaxExternalUtil] is not part of this
    file; of its state the bridge only ever reads the presence flag, which
    the capability interface types as [isPresent() -> bool]. *)
Record World : Type := mkWorld {
  mathjax_present : bool;          (* answer of cvox.MathJaxExternalUtil.isActive() *)
  channels : nat;                  (* MessageChannel objects created so far *)
  effects : list effect;           (* requests to the environment, oldest first *)
  entered : list handler_call      (* ghost: handlers entered, oldest first *)
}.

(** ** The monad: state and exceptions *)

Inductive completion (A : Type) : Type :=
| Normal (a : A)
| Throw (e : error).
Arguments Normal {A} a.
Arguments Throw {A} e.

Definition M (A : Type) : Type := World -> completion A * World.

#[global] Instance M_ret : MRet M := fun A a w => (Normal a, w).

#[global] Instance M_bind : MBind M := fun A B f c w =>
  match c w with
  | (Normal a, w') => f a w'
  | (Throw e, w') => (Throw e, w')
  end.

Definition throw {A : Type} (e : error) : M A := fun w => (Throw e, w).

Definition emit (e : effect) : M unit := fun w =>
  (Normal tt, mkWorld (mathjax_present w) (channels w) (effects w ++ [e]) (entered w)).

Definition enter (h : handler_call) : M unit := fun w =>
  (Normal tt, mkWorld (mathjax_present w) (channels w) (effects w) (entered w ++ [h])).

(** [new MessageChannel()] *)
Definition new_MessageChannel : M MessageChannel := fun w =>
  (Normal (Channel (channels w)),
   mkWorld (mathjax_present w) (S (channels w)) (effects w) (entered w)).

(** [cvox.MathJaxExternalUtil.isActive()] *)
Definition ext_isActive : M value := fun w =>
  (Normal (VBool (mathjax_present w)),
   mkWorld (mathjax_present w) (channels w) (effects w ++ [ExtIsActive]) (entered w)).

(** The ports handed over to another context so far. *)
Definition transferred (w : World) : list MessagePort :=
  concat (omap (fun e => match e with
                         | WindowPostMessage _ ports _ => Some ports
                         | _ => None
                         end) (effects w)).

(** A port that was handed over is detached: it cannot be handed over
    again. *)
Definition detached (p : MessagePort) (w : World) : bool :=
  bool_decide (p ∈ transferred w).

(** [window.postMessage(a1, a2, a3)] with a list of ports to hand over:
    when one of them is detached the call throws a DataCloneError and nothing
    is sent. *)
Definition window_postMessage (message : value) (ports : list MessagePort)
    (target : value) : M unit := fun w =>
  if existsb (fun p => detached p w) ports then (Throw DataCloneError, w)
  else emit (WindowPostMessage message ports target) w.

(** ** Property reads and comparisons *)

(** [undefined] and [null] have no properties. *)
Definition nullish (v : value) : bool :=
  match v with
  | VUndefined | VNull => true
  | _ => false
  end.

(** The value of property [k] of [v], for [v] other than [undefined] and
    [null] and for the property names this file reads ([args], [cmd], [id],
    [alt], [sig], [data]): an absent property reads as [undefined], and none
    of these names is defined on the wrapper of a primitive. *)
Definition field (v : value) (k : string) : value :=
  match v with
  | VObject fields => default VUndefined (fields !! k)
  | _ => VUndefined
  end.

(** [v.k]: reading a property of [undefined] or [null] throws a TypeError. *)
Definition get_prop (v : value) (k : string) : M value :=
  if nullish v then throw TypeError else mret (field v k).

(** [v === 'name'], the comparison a [switch] makes against a string label. *)
Definition is_string (v : value) (name : string) : bool :=
  match v with
  | VString s => bool_decide (s = name)
  | _ => false
  end.

(** The i-th actual argument of a call, [undefined] when not supplied. *)
Definition argument (i : nat) (arguments : list value) : value :=
  default VUndefined (arguments !! i).

(** ** The bridge

    The section variable is the [channel_] of the enclosing function scope
    (l.35): every function of the file closes over it. *)

Section Bridge.

Variable channel_ : MessageChannel.

(** l.62-64 *)
Definition postMessage (cmd callbackId args : value) : M unit :=
  emit (PortPostMessage (port1 channel_)
          (VObject {[ "cmd" := cmd; "id" := callbackId; "args" := args ]})).

(** l.127-132: the function returned ... *)
Definition getMathmlCallback_ (callbackId : value) : callback :=
  MathmlCallback callbackId.

(** ... and what it does when called. *)
Definition call_callback (f : callback) (arguments : list value) : M unit :=
  match f with
  | MathmlCallback callbackId =>
      let mml := argument 0 arguments in
      let id := argument 1 arguments in
      postMessage (VString "NodeMml") callbackId
                  (VObject {[ "mathml" := mml; "elementId" := id ]})
  end.

(** l.153-155 and l.168-170 *)
Definition call_continuation (k : continuation) (arguments : list value) : M unit :=
  match k with
  | TexToMmlContinuation callbackId cvoxId
  | AsciiMathToMmlContinuation callbackId cvoxId =>
      let mml := argument 0 arguments in
      call_callback (getMathmlCallback_ callbackId) [mml; cvoxId]
  end.

(** l.102-105 *)
Definition getAllJax (callbackId : value) : M unit :=
  enter (Enter_getAllJax callbackId);;
  emit (ExtGetAllJax (getMathmlCallback_ callbackId)).

(** l.113-116 *)
Definition registerSignal (callbackId signal : value) : M unit :=
  enter (Enter_registerSignal callbackId signal);;
  emit (ExtRegisterSignal (getMathmlCallback_ callbackId) signal).

(** l.138-141 *)
Definition injectScripts : M unit :=
  enter Enter_injectScripts;;
  emit ExtInjectConfigScript;;
  emit ExtInjectLoadScript.

(** l.150-156 *)
Definition texToMml (callbackId tex cvoxId : value) : M unit :=
  enter (Enter_texToMml callbackId tex cvoxId);;
  emit (ExtTexToMml tex (VBool true) (TexToMmlContinuation callbackId cvoxId)).

(** l.165-171 *)
Definition asciiMathToMml (callbackId asciiMath cvoxId : value) : M unit :=
  enter (Enter_asciiMathToMml callbackId asciiMath cvoxId);;
  emit (ExtAsciiMathToMml asciiMath (VBool true)
          (AsciiMathToMmlContinuation callbackId cvoxId)).

(** l.178-182 *)
Definition isActive (callbackId : value) : M unit :=
  enter (Enter_isActive callbackId);;
  status ← ext_isActive;
  postMessage (VString "Active") callbackId (VObject {[ "status" := status ]}).

(** l.72-94.  The arguments of a call are evaluated left to right before
    the callee is entered. *)
Definition execMessage (msg : value) : M unit :=
  args ← get_prop msg "args";
  cmd ← get_prop msg "cmd";
  if is_string cmd "Active" then
    callbackId ← get_prop msg "id";
    isActive callbackId
  else if is_string cmd "AllJax" then
    callbackId ← get_prop msg "id";
    getAllJax callbackId
  else if is_string cmd "AsciiMathToMml" then
    callbackId ← get_prop msg "id";
    alt ← get_prop args "alt";
    id ← get_prop args "id";
    asciiMathToMml callbackId alt id
  else if is_string cmd "InjectScripts" then
    injectScripts
  else if is_string cmd "RegSig" then
    callbackId ← get_prop msg "id";
    sig ← get_prop args "sig";
    registerSignal callbackId sig
  else if is_string cmd "TexToMml" then
    callbackId ← get_prop msg "id";
    alt ← get_prop args "alt";
    id ← get_prop args "id";
    texToMml callbackId alt id
  else
    mret tt.

(** The listener of l.49-51. *)
Definition call_listener (l : listener) (evt : value) : M unit :=
  match l with
  | ExecMessageListener =>
      data ← get_prop evt "data";
      execMessage data
  end.

(** l.48-53 *)
Definition initMessage : M unit :=
  emit (SetOnmessage (port1 channel_) ExecMessageListener);;
  window_postMessage (VString "cvox.MathJaxPortSetup") [port2 channel_]
    (VString "*").

End Bridge.

(** l.30-188: the body of the enclosing function, run once when the script
    is loaded. *)
Definition load : M unit :=
  channel_ ← new_MessageChannel;
  initMessage channel_.

(** ** Observations on a world *)

Definition posted (e : effect) : option value :=
  match e with
  | PortPostMessage _ message => Some message
  | _ => None
  end.

(** The Result Envelopes sent so far, oldest first. *)
Definition emitted (w : World) : list value := omap posted (effects w).

(** The continuation handed over by a conversion request. *)
Definition requested_continuation (e : effect) : option continuation :=
  match e with
  | ExtTexToMml _ _ k | ExtAsciiMathToMml _ _ k => Some k
  | _ => None
  end.

(** The callback handed over by an enumeration request. *)
Definition enumeration_callback (e : effect) : option callback :=
  match e with
  | ExtGetAllJax f => Some f
  | _ => None
  end.

(** The display flag of a conversion request. *)
Definition display_flag (e : effect) : option value :=
  match e with
  | ExtTexToMml _ display _ | ExtAsciiMathToMml _ display _ => Some display
  | _ => None
  end.

(** The ports a [window.postMessage] hands over. *)
Definition broadcast_ports (e : effect) : option (list MessagePort) :=
  match e with
  | WindowPostMessage _ ports _ => Some ports
  | _ => None
  end.

(** The envelopes of l.63, as the two call sites (l.129, l.179) fill them. *)
Definition envelope (cmd : string) (callbackId : value) (args : gmap string value) : value :=
  VObject {[ "cmd" := VString cmd; "id" := callbackId; "args" := VObject args ]}.

Definition node_envelope (callbackId mml id : value) : value :=
  envelope "NodeMml" callbackId {[ "mathml" := mml; "elementId" := id ]}.

Definition active_envelope (callbackId : value) (status : bool) : value :=
  envelope "Active" callbackId {[ "status" := VBool status ]}.

(** Wire shape of a Result Envelope: exactly the properties [cmd], [id] and
    [args], with [cmd] one of the two result tags and [args] an object. *)
Definition result_tags : list string := ["Active"; "NodeMml"].

Definition result_envelope (m : value) : Prop :=
  exists cmd callbackId args, m = envelope cmd callbackId args /\ cmd ∈ result_tags.

(** The command names of the [switch] of l.74-93, in source order. *)
Definition command_names : list string :=
  ["Active"; "AllJax"; "AsciiMathToMml"; "InjectScripts"; "RegSig"; "TexToMml"].

(** The commands whose [case] reads a property of [args] (l.82, l.88, l.91). *)
Definition reads_args : list string := ["AsciiMathToMml"; "RegSig"; "TexToMml"].

(** The call each [case] makes, given the message. *)
Definition handler_of (name : string) (msg : value) : option handler_call :=
  let callbackId := field msg "id" in
  let args := field msg "args" in
  if bool_decide (name = "Active") then Some (Enter_isActive callbackId)
  else if bool_decide (name = "AllJax") then Some (Enter_getAllJax callbackId)
  else if bool_decide (name = "AsciiMathToMml") then
    Some (Enter_asciiMathToMml callbackId (field args "alt") (field args "id"))
  else if bool_decide (name = "InjectScripts") then Some Enter_injectScripts
  else if bool_decide (name = "RegSig") then
    Some (Enter_registerSignal callbackId (field args "sig"))
  else if bool_decide (name = "TexToMml") then
    Some (Enter_texToMml callbackId (field args "alt") (field args "id"))
  else None.

(** ** The environment *)

(** A collaborator calling a function value several times, one argument
    list per call. *)
Fixpoint call_each {A : Type} (call : A -> M unit) (l : list A) : M unit :=
  match l with
  | [] => mret tt
  | a :: l' => call a;; call_each call l'
  end.

(** The callbacks registered for a signal, in registration order. *)
Definition subscription (signal : string) (e : effect) : option callback :=
  match e with
  | ExtRegisterSignal f (VString s) => if bool_decide (s = signal) then Some f else None
  | _ => None
  end.

Definition subscribers (signal : string) (w : World) : list callback :=
  omap (subscription signal) (effects w).

(** Modelled from the spec: [cvox.MathJaxExternalUtil.registerSignal] is not
    part of this file.  Per the capability interface
    [subscribe(eventName, callback(markup, elementId))], a firing of a signal
    calls every callback registered for it, with the markup and element id of
    the firing. *)
Definition fire (channel_ : MessageChannel) (signal : string) (arguments : list value) : M unit :=
  fun w => call_each (fun f => call_callback channel_ f arguments) (subscribers signal w) w.

(** The listener last assigned to [p.onmessage]. *)
Definition assigned_listener (p : MessagePort) (e : effect) : option listener :=
  match e with
  | SetOnmessage p' l => if bool_decide (p' = p) then Some l else None
  | _ => None
  end.

Definition onmessage (p : MessagePort) (w : World) : option listener :=
  last (omap (assigned_listener p) (effects w)).

(** What the host's event loop can make the bridge do: deliver a message to
    [channel_.port1], or run the collaborator, which may call a function
    value of the bridge or change its presence flag. *)
Inductive event : Type :=
| MessageArrives (msg : value)
| CallbackCalled (f : callback) (arguments : list value)
| ContinuationCalled (k : continuation) (arguments : list value)
| PresenceChanges (present : bool).

Definition handle (channel_ : MessageChannel) (ev : event) : M unit :=
  match ev with
  | MessageArrives msg => fun w =>
      match onmessage (port1 channel_) w with
      | Some l => call_listener channel_ l (VObject {[ "data" := msg ]}) w
      | None => (Normal tt, w)
      end
  | CallbackCalled f arguments => call_callback channel_ f arguments
  | ContinuationCalled k arguments => call_continuation channel_ k arguments
  | PresenceChanges present => fun w =>
      (Normal tt, mkWorld present (channels w) (effects w) (entered w))
  end.

(** An error that escapes a task is reported by the host; the loop goes on. *)
Definition run (channel_ : MessageChannel) (evs : list event) (w : World) : World :=
  foldl (fun w ev => (handle channel_ ev w).2) w evs.

(** A page before the script is loaded. *)
Definition fresh_page (present : bool) : World := mkWorld present 0 [] [].

(** The envelope a callback posts for one call by the collaborator. *)
Definition forwarded (arguments : list value) (f : callback) : value :=
  match f with
  | MathmlCallback callbackId =>
      node_envelope callbackId (argument 0 arguments) (argument 1 arguments)
  end.

(** Every request the functions of the bridge can make. *)
Inductive bridge_effect (channel_ : MessageChannel) : effect -> Prop :=
| be_onmessage :
    bridge_effect channel_ (SetOnmessage (port1 channel_) ExecMessageListener)
| be_broadcast :
    bridge_effect channel_
      (WindowPostMessage (VString "cvox.MathJaxPortSetup") [port2 channel_] (VString "*"))
| be_active callbackId status :
    bridge_effect channel_
      (PortPostMessage (port1 channel_) (active_envelope callbackId status))
| be_node callbackId mml id :
    bridge_effect channel_
      (PortPostMessage (port1 channel_) (node_envelope callbackId mml id))
| be_isActive : bridge_effect channel_ ExtIsActive
| be_getAllJax callbackId :
    bridge_effect channel_ (ExtGetAllJax (getMathmlCallback_ callbackId))
| be_registerSignal callbackId signal :
    bridge_effect channel_ (ExtRegisterSignal (getMathmlCallback_ callbackId) signal)
| be_injectConfigScript : bridge_effect channel_ ExtInjectConfigScript
| be_injectLoadScript : bridge_effect channel_ ExtInjectLoadScript
| be_texToMml callbackId tex cvoxId :
    bridge_effect channel_
      (ExtTexToMml tex (VBool true) (TexToMmlContinuation callbackId cvoxId))
| be_asciiMathToMml callbackId asciiMath cvoxId :
    bridge_effect channel_
      (ExtAsciiMathToMml asciiMath (VBool true)
         (AsciiMathToMmlContinuation callbackId cvoxId)).

(** The two envelopes the bridge builds. *)
Definition bridge_envelope (m : value) : Prop :=
  (exists callbackId status, m = active_envelope callbackId status) \/
  (exists callbackId mml id, m = node_envelope callbackId mml id).

(** A conversion is asked for in display mode. *)
Definition display_mode (e : effect) : Prop :=
  forall display, display_flag e = Some display -> display = VBool true.

(** ** Sample messages *)

Definition tex_request : value :=
  VObject {[ "cmd" := VString "TexToMml"; "id" := VString "2";
             "args" := VObject {[ "alt" := VString "x^2"; "id" := VString "elemA" ]} ]}.

Definition alljax_request : value :=
  VObject {[ "cmd" := VString "AllJax"; "id" := VString "7"; "args" := VObject ∅ ]}.

Definition two_nodes : list (list value) :=
  [ [VString "<math>a</math>"; VString "n1"]; [VString "<math>b</math>"; VString "n2"] ].

Definition regsig_request (callbackId : string) : value :=
  VObject {[ "cmd" := VString "RegSig"; "id" := VString callbackId;
             "args" := VObject {[ "sig" := VString "New Math" ]} ]}.

Definition two_firings : list (list value) :=
  [ [VString "<math>a</math>"; VString "n1"]; [VString "<math>b</math>"; VString "n2"] ].

Definition active_request : value :=
  VObject {[ "cmd" := VString "Active"; "id" := VString "1"; "args" := VObject ∅ ]}.

Definition bogus_request : value :=
  VObject {[ "cmd" := VString "Bogus"; "id" := VString "3"; "args" := VObject ∅ ]}.

Definition tex_request_without_args : value :=
  VObject {[ "cmd" := VString "TexToMml"; "id" := VString "1" ]}.

Definition tex_request_empty_args : value :=
  VObject {[ "cmd" := VString "TexToMml"; "id" := VString "2"; "args" := VObject ∅ ]}.

Definition alljax_request_without_args : value :=
  VObject {[ "cmd" := VString "AllJax"; "id" := VString "7" ]}.

(** ** Further observations *)

(** The world [w] with requests and handler entries added at the end. *)
Definition extend (w : World) (new : list effect) (hs : list handler_call) : World :=
  mkWorld (mathjax_present w) (channels w) (effects w ++ new) (entered w ++ hs).

(** The two requests that set the channel up (l.49, l.52). *)
Definition setup_effect (e : effect) : bool :=
  match e with
  | SetOnmessage _ _ | WindowPostMessage _ _ _ => true
  | _ => false
  end.

(** The port a message is posted on. *)
Definition posted_on (e : effect) : option MessagePort :=
  match e with
  | PortPostMessage p _ => Some p
  | _ => None
  end.

(** The function a request hands to the collaborator for repeated use. *)
Definition handed_callback (e : effect) : option callback :=
  match e with
  | ExtGetAllJax f | ExtRegisterSignal f _ => Some f
  | _ => None
  end.

(** The correlation id a function value was made for. *)
Definition callback_id (f : callback) : value :=
  match f with
  | MathmlCallback callbackId => callbackId
  end.

Definition continuation_id (k : continuation) : value :=
  match k with
  | TexToMmlContinuation callbackId _ | AsciiMathToMmlContinuation callbackId _ =>
      callbackId
  end.

Definition continuation_element (k : continuation) : value :=
  match k with
  | TexToMmlContinuation _ cvoxId | AsciiMathToMmlContinuation _ cvoxId => cvoxId
  end.

(** The envelope one call by the collaborator makes the bridge post. *)
Definition call_envelope (ev : event) : option value :=
  match ev with
  | CallbackCalled f arguments => Some (forwarded arguments f)
  | ContinuationCalled k arguments =>
      Some (node_envelope (continuation_id k) (argument 0 arguments)
              (continuation_element k))
  | _ => None
  end.

Definition message_event (ev : event) : bool :=
  match ev with
  | MessageArrives _ => true
  | _ => false
  end.

(** The correlation ids of the messages among the events. *)
Definition asked_id (ev : event) : option value :=
  match ev with
  | MessageArrives msg => Some (field msg "id")
  | _ => None
  end.

(** A collaborator that only calls functions it was given. *)
Definition allowed (ev : event) (w : World) : Prop :=
  match ev with
  | CallbackCalled f _ => f ∈ omap handed_callback (effects w)
  | ContinuationCalled k _ => k ∈ omap requested_continuation (effects w)
  | _ => True
  end.

Fixpoint legal (channel_ : MessageChannel) (evs : list event) (w : World) : Prop :=
  match evs with
  | [] => True
  | ev :: evs' => allowed ev w /\ legal channel_ evs' (handle channel_ ev w).2
  end.

Definition inject_request : value :=
  VObject {[ "cmd" := VString "InjectScripts"; "id" := VString "9" ]}.

(** The correlation ids a request carries all belong to [ids]. *)
Definition ids_within (ids : list value) (e : effect) : Prop :=
  match e with
  | PortPostMessage _ m => field m "id" ∈ ids
  | ExtGetAllJax f | ExtRegisterSignal f _ => callback_id f ∈ ids
  | ExtTexToMml _ _ k | ExtAsciiMathToMml _ _ k => continuation_id k ∈ ids
  | _ => True
  end.

Definition late_calls : list event :=
  [ ContinuationCalled (TexToMmlContinuation (VString "2") (VString "elemB"))
      [VString "<math>b</math>"];
    PresenceChanges false;
    ContinuationCalled (TexToMmlContinuation (VString "1") (VString "elemA"))
      [VString "<math>a</math>"] ].

Definition request_then_answer : list event :=
  [ MessageArrives tex_request;
    ContinuationCalled (TexToMmlContinuation (VString "2") (VString "elemA"))
      [VString "<math>...</math>"] ].

(** ** Reading properties *)

Lemma get_prop_field v k w :
  nullish v = false -> get_prop v k w = (Normal (field v k), w).
Proof. intros Hv. unfold get_prop. by rewrite Hv. Qed.

Lemma get_prop_nullish v k w :
  nullish v = true -> get_prop v k w = (Throw TypeError, w).
Proof. intros Hv. unfold get_prop. by rewrite Hv. Qed.

(** Only an object has a property that reads as a string. *)
Lemma field_string_object v k s : field v k = VString s -> nullish v = false.
Proof. by destruct v. Qed.

Lemma is_string_true v name : is_string v name = true <-> v = VString name.
Proof.
  destruct v; simpl; try (split; [done | congruence]).
  rewrite bool_decide_eq_true. split; congruence.
Qed.

Lemma is_string_false v name : v <> VString name -> is_string v name = false.
Proof.
  intros Hne. destruct (is_string v name) eqn:E; [|done].
  by apply is_string_true in E.
Qed.

(** ** What each handler does *)

Section Handlers.

Variable channel_ : MessageChannel.

Lemma postMessage_run cmd callbackId args w :
  postMessage channel_ (VString cmd) callbackId (VObject args) w =
  (Normal tt, mkWorld (mathjax_present w) (channels w)
     (effects w ++ [PortPostMessage (port1 channel_) (envelope cmd callbackId args)])
     (entered w)).
Proof. reflexivity. Qed.

Lemma call_callback_run callbackId arguments w :
  call_callback channel_ (getMathmlCallback_ callbackId) arguments w =
  (Normal tt, mkWorld (mathjax_present w) (channels w)
     (effects w ++ [PortPostMessage (port1 channel_)
        (node_envelope callbackId (argument 0 arguments) (argument 1 arguments))])
     (entered w)).
Proof. reflexivity. Qed.

Lemma isActive_run callbackId w :
  isActive channel_ callbackId w =
  (Normal tt, mkWorld (mathjax_present w) (channels w)
     (effects w ++ [ExtIsActive;
        PortPostMessage (port1 channel_) (active_envelope callbackId (mathjax_present w))])
     (entered w ++ [Enter_isActive callbackId])).
Proof.
  unfold isActive, mbind, M_bind; simpl.
  rewrite postMessage_run; simpl. by rewrite <- app_assoc.
Qed.

Lemma getAllJax_run callbackId w :
  getAllJax callbackId w =
  (Normal tt, mkWorld (mathjax_present w) (channels w)
     (effects w ++ [ExtGetAllJax (getMathmlCallback_ callbackId)])
     (entered w ++ [Enter_getAllJax callbackId])).
Proof. reflexivity. Qed.

Lemma registerSignal_run callbackId signal w :
  registerSignal callbackId signal w =
  (Normal tt, mkWorld (mathjax_present w) (channels w)
     (effects w ++ [ExtRegisterSignal (getMathmlCallback_ callbackId) signal])
     (entered w ++ [Enter_registerSignal callbackId signal])).
Proof. reflexivity. Qed.

Lemma injectScripts_run w :
  injectScripts w =
  (Normal tt, mkWorld (mathjax_present w) (channels w)
     (effects w ++ [ExtInjectConfigScript; ExtInjectLoadScript])
     (entered w ++ [Enter_injectScripts])).
Proof. unfold injectScripts, mbind, M_bind, emit; simpl. by rewrite <- app_assoc. Qed.

Lemma texToMml_run callbackId tex cvoxId w :
  texToMml callbackId tex cvoxId w =
  (Normal tt, mkWorld (mathjax_present w) (channels w)
     (effects w ++ [ExtTexToMml tex (VBool true) (TexToMmlContinuation callbackId cvoxId)])
     (entered w ++ [Enter_texToMml callbackId tex cvoxId])).
Proof. reflexivity. Qed.

Lemma asciiMathToMml_run callbackId asciiMath cvoxId w :
  asciiMathToMml callbackId asciiMath cvoxId w =
  (Normal tt, mkWorld (mathjax_present w) (channels w)
     (effects w ++ [ExtAsciiMathToMml asciiMath (VBool true)
                      (AsciiMathToMmlContinuation callbackId cvoxId)])
     (entered w ++ [Enter_asciiMathToMml callbackId asciiMath cvoxId])).
Proof. reflexivity. Qed.

(** ** Which handler [execMessage] calls *)

Ltac read_message Hc :=
  let Hm := fresh "Hm" in
  pose proof (field_string_object _ _ _ Hc) as Hm;
  unfold execMessage, mbind, M_bind;
  rewrite !(get_prop_field _ _ _ Hm); rewrite Hc; simpl;
  rewrite ?(get_prop_field _ _ _ Hm).

Lemma execMessage_Active msg w :
  field msg "cmd" = VString "Active" ->
  execMessage channel_ msg w = isActive channel_ (field msg "id") w.
Proof. intros Hc. by read_message Hc. Qed.

Lemma execMessage_AllJax msg w :
  field msg "cmd" = VString "AllJax" ->
  execMessage channel_ msg w = getAllJax (field msg "id") w.
Proof. intros Hc. by read_message Hc. Qed.

Lemma execMessage_InjectScripts msg w :
  field msg "cmd" = VString "InjectScripts" ->
  execMessage channel_ msg w = injectScripts w.
Proof. intros Hc. by read_message Hc. Qed.

Lemma execMessage_AsciiMathToMml msg w :
  field msg "cmd" = VString "AsciiMathToMml" ->
  nullish (field msg "args") = false ->
  execMessage channel_ msg w =
  asciiMathToMml (field msg "id") (field (field msg "args") "alt")
                 (field (field msg "args") "id") w.
Proof.
  intros Hc Ha. read_message Hc. by rewrite !(get_prop_field _ _ _ Ha).
Qed.

Lemma execMessage_TexToMml msg w :
  field msg "cmd" = VString "TexToMml" ->
  nullish (field msg "args") = false ->
  execMessage channel_ msg w =
  texToMml (field msg "id") (field (field msg "args") "alt")
           (field (field msg "args") "id") w.
Proof.
  intros Hc Ha. read_message Hc. by rewrite !(get_prop_field _ _ _ Ha).
Qed.

Lemma execMessage_RegSig msg w :
  field msg "cmd" = VString "RegSig" ->
  nullish (field msg "args") = false ->
  execMessage channel_ msg w =
  registerSignal (field msg "id") (field (field msg "args") "sig") w.
Proof.
  intros Hc Ha. read_message Hc. by rewrite !(get_prop_field _ _ _ Ha).
Qed.

(** A [case] that reads a property of a missing [args] throws before the
    handler is entered. *)
Lemma execMessage_no_args name msg w :
  name ∈ reads_args ->
  field msg "cmd" = VString name ->
  nullish (field msg "args") = true ->
  execMessage channel_ msg w = (Throw TypeError, w).
Proof.
  intros Hn Hc Ha. unfold reads_args in Hn.
  repeat (apply elem_of_cons in Hn as [-> | Hn]); [| | | by apply elem_of_nil in Hn];
    read_message Hc; by rewrite (get_prop_nullish _ _ _ Ha).
Qed.

Lemma execMessage_unknown msg w :
  nullish msg = false ->
  (forall name, name ∈ command_names -> field msg "cmd" <> VString name) ->
  execMessage channel_ msg w = (Normal tt, w).
Proof.
  intros Hm Hc. unfold execMessage, mbind, M_bind.
  rewrite !(get_prop_field _ _ _ Hm).
  rewrite !is_string_false; [done | apply Hc; unfold command_names; set_solver ..].
Qed.

End Handlers.

(** ** Effects only accumulate *)

Section Dispatch.

Variable channel_ : MessageChannel.

Lemma emitted_app w new present n hs :
  emitted (mkWorld present n (effects w ++ new) hs) = emitted w ++ omap posted new.
Proof. unfold emitted; simpl. apply omap_app. Qed.

(** The outcomes of a dispatch: a fault before anything was done, nothing
    at all, or one of the six handlers. *)
Lemma execMessage_cases msg w :
  execMessage channel_ msg w = (Throw TypeError, w) \/
  execMessage channel_ msg w = (Normal tt, w) \/
  (exists K, execMessage channel_ msg w = isActive channel_ K w) \/
  (exists K, execMessage channel_ msg w = getAllJax K w) \/
  (exists K a E, execMessage channel_ msg w = asciiMathToMml K a E w) \/
  execMessage channel_ msg w = injectScripts w \/
  (exists K s, execMessage channel_ msg w = registerSignal K s w) \/
  (exists K t E, execMessage channel_ msg w = texToMml K t E w).
Proof.
  destruct (nullish msg) eqn:Hm.
  { left. unfold execMessage, mbind, M_bind. by rewrite (get_prop_nullish _ _ _ Hm). }
  destruct (field msg "cmd") as [| | | |s|] eqn:Hc;
    try (right; left; apply execMessage_unknown; [done | intros ? _; congruence]).
  destruct (decide (s = "Active")) as [->|].
  { do 2 right; left. eexists. by apply execMessage_Active. }
  destruct (decide (s = "AllJax")) as [->|].
  { do 3 right; left. eexists. by apply execMessage_AllJax. }
  destruct (decide (s = "InjectScripts")) as [->|].
  { do 5 right; left. by apply execMessage_InjectScripts. }
  destruct (decide (s ∈ reads_args)) as [Hr|Hr].
  - destruct (nullish (field msg "args")) eqn:Ha.
    { left. by eapply execMessage_no_args. }
    unfold reads_args in Hr.
    repeat (apply elem_of_cons in Hr as [-> | Hr]); [| | | by apply elem_of_nil in Hr].
    + do 4 right; left. do 3 eexists. by apply execMessage_AsciiMathToMml.
    + do 6 right; left. do 2 eexists. by apply execMessage_RegSig.
    + do 7 right. do 3 eexists. by apply execMessage_TexToMml.
  - right; left. apply execMessage_unknown; [done|].
    intros name Hn. rewrite Hc. intros [= <-]. apply Hr.
    unfold command_names in Hn. unfold reads_args.
    rewrite !elem_of_cons in Hn. rewrite !elem_of_cons.
    destruct Hn as [?|[?|[?|[?|[?|[?|Hn]]]]]]; auto; done.
Qed.

Lemma execMessage_effects msg w :
  exists new,
    effects (execMessage channel_ msg w).2 = effects w ++ new /\
    Forall (bridge_effect channel_) new.
Proof.
  destruct (execMessage_cases msg w)
    as [H|[H|[[K H]|[[K H]|[(K&a&E&H)|[H|[(K&s&H)|(K&t&E&H)]]]]]]]; rewrite H.
  - exists []. by rewrite app_nil_r.
  - exists []. by rewrite app_nil_r.
  - rewrite isActive_run. eexists; split; [done|].
    repeat apply List.Forall_cons; [apply be_isActive | apply be_active | apply List.Forall_nil].
  - rewrite getAllJax_run. eexists; split; [done|].
    apply List.Forall_cons; [apply be_getAllJax | apply List.Forall_nil].
  - rewrite asciiMathToMml_run. eexists; split; [done|].
    apply List.Forall_cons; [apply be_asciiMathToMml | apply List.Forall_nil].
  - rewrite injectScripts_run. eexists; split; [done|].
    repeat apply List.Forall_cons;
      [apply be_injectConfigScript | apply be_injectLoadScript | apply List.Forall_nil].
  - rewrite registerSignal_run. eexists; split; [done|].
    apply List.Forall_cons; [apply be_registerSignal | apply List.Forall_nil].
  - rewrite texToMml_run. eexists; split; [done|].
    apply List.Forall_cons; [apply be_texToMml | apply List.Forall_nil].
Qed.

Lemma handle_effects ev w :
  exists new,
    effects (handle channel_ ev w).2 = effects w ++ new /\
    Forall (bridge_effect channel_) new.
Proof.
  destruct ev as [msg|[K] arguments|k arguments|present]; cbn [handle].
  - destruct (onmessage (port1 channel_) w) as [[]|].
    + unfold call_listener, mbind, M_bind. rewrite get_prop_field by done.
      apply execMessage_effects.
    + exists []. by rewrite app_nil_r.
  - rewrite (call_callback_run channel_ K).
    eexists; split; [done|]. apply List.Forall_cons; [apply be_node | apply List.Forall_nil].
  - destruct k as [K E|K E]; unfold call_continuation;
      rewrite (call_callback_run channel_ K);
      (eexists; split; [done|]; apply List.Forall_cons; [apply be_node | apply List.Forall_nil]).
  - exists []. by rewrite app_nil_r.
Qed.

Lemma run_effects evs w :
  Forall (bridge_effect channel_) (effects w) ->
  Forall (bridge_effect channel_) (effects (run channel_ evs w)).
Proof.
  revert w. induction evs as [|ev evs IH]; intros w Hw; [done|].
  simpl. apply IH.
  destruct (handle_effects ev w) as (new & -> & Hnew). by apply Forall_app.
Qed.

Lemma load_effects present :
  Forall (bridge_effect (Channel 0)) (effects (load (fresh_page present)).2).
Proof.
  repeat apply List.Forall_cons; [apply be_onmessage | apply be_broadcast | apply List.Forall_nil].
Qed.

End Dispatch.

(** ** How the collaborator's calls come back as envelopes *)

Section Results.

Variable channel_ : MessageChannel.

(** Each call of a callback posts one envelope and nothing else. *)
Lemma call_each_callback callbackId calls w :
  exists w',
    call_each (call_callback channel_ (getMathmlCallback_ callbackId)) calls w
      = (Normal tt, w') /\
    mathjax_present w' = mathjax_present w /\
    emitted w' = emitted w ++ map (fun a => forwarded a (getMathmlCallback_ callbackId)) calls /\
    forall signal, subscribers signal w' = subscribers signal w.
Proof.
  revert w. induction calls as [|a calls IH]; intros w.
  - exists w. simpl. by rewrite app_nil_r.
  - cbn [call_each]. unfold mbind, M_bind. rewrite call_callback_run.
    destruct (IH (mkWorld (mathjax_present w) (channels w)
      (effects w ++ [PortPostMessage (port1 channel_)
         (node_envelope callbackId (argument 0 a) (argument 1 a))]) (entered w)))
      as (w' & -> & Hp & He & Hs).
    exists w'. split; [done|]. split; [done|]. split.
    + rewrite He, emitted_app. simpl. by rewrite <- app_assoc.
    + intros signal. rewrite Hs. unfold subscribers; simpl.
      rewrite omap_app. simpl. by rewrite app_nil_r.
Qed.

(** A continuation is the shared callback with the element id filled in. *)
Lemma call_continuation_shared k arguments w :
  exists callbackId cvoxId,
    (k = TexToMmlContinuation callbackId cvoxId \/
     k = AsciiMathToMmlContinuation callbackId cvoxId) /\
    call_continuation channel_ k arguments w =
    call_callback channel_ (getMathmlCallback_ callbackId) [argument 0 arguments; cvoxId] w.
Proof. destruct k as [K E|K E]; exists K, E; auto. Qed.

Lemma call_each_continuation callbackId cvoxId k calls w :
  k = TexToMmlContinuation callbackId cvoxId \/
  k = AsciiMathToMmlContinuation callbackId cvoxId ->
  exists w',
    call_each (call_continuation channel_ k) calls w = (Normal tt, w') /\
    emitted w' =
      emitted w ++ map (fun a => node_envelope callbackId (argument 0 a) cvoxId) calls.
Proof.
  intros Hk. revert w. induction calls as [|a calls IH]; intros w.
  - exists w. simpl. by rewrite app_nil_r.
  - cbn [call_each]. unfold mbind, M_bind.
    assert (call_continuation channel_ k a w =
            call_callback channel_ (getMathmlCallback_ callbackId) [argument 0 a; cvoxId] w)
      as -> by (by destruct Hk as [-> | ->]).
    rewrite call_callback_run.
    match goal with |- context [call_each _ calls ?w1] =>
      destruct (IH w1) as (w' & -> & He) end.
    exists w'. split; [done|].
    rewrite He, emitted_app. simpl. by rewrite <- app_assoc.
Qed.

End Results.

Section Claims.

Variable channel_ : MessageChannel.

Lemma new_request_continuation w e k present n hs :
  requested_continuation e = Some k ->
  omap requested_continuation (effects (mkWorld present n (effects w ++ [e]) hs)) =
  omap requested_continuation (effects w) ++ [k].
Proof. intros He. simpl. rewrite omap_app. simpl. by rewrite He. Qed.

(** C1: a TexToMml or AsciiMathToMml envelope with correlation id K, whose
    args hold the element id E under [id], is answered by exactly one Result
    Envelope [{cmd: 'NodeMml', id: K, args: {mathml: M, elementId: E}}] when
    the collaborator calls the continuation it was given exactly once, with
    markup M.  The dispatch itself posts nothing; the envelope is posted when
    the continuation is called, whenever that is. *)
Theorem conversion_yields_one_envelope msg markup calls w :
  field msg "cmd" = VString "TexToMml" \/ field msg "cmd" = VString "AsciiMathToMml" ->
  nullish (field msg "args") = false ->
  length calls = 1 ->
  Forall (fun arguments => argument 0 arguments = markup) calls ->
  exists k w1,
    execMessage channel_ msg w = (Normal tt, w1) /\
    emitted w1 = emitted w /\
    omap requested_continuation (effects w1) =
      omap requested_continuation (effects w) ++ [k] /\
    forall w', exists w2,
      call_each (call_continuation channel_ k) calls w' = (Normal tt, w2) /\
      emitted w2 = emitted w' ++
        [VObject {[ "cmd" := VString "NodeMml"; "id" := field msg "id";
                    "args" := VObject {[ "mathml" := markup;
                                         "elementId" := field (field msg "args") "id" ]} ]}].
Proof.
  intros Hc Ha Hlen Hm.
  destruct calls as [|a [|]]; try discriminate Hlen.
  apply Forall_inv in Hm.
  destruct Hc as [Hc|Hc].
  - rewrite (execMessage_TexToMml _ _ _ Hc Ha), texToMml_run.
    eexists _, _. split; [done|]. split; [|split].
    + rewrite emitted_app. simpl. by rewrite app_nil_r.
    + by apply new_request_continuation.
    + intros w'.
      destruct (call_each_continuation channel_ (field msg "id")
                  (field (field msg "args") "id") _ [a] w' (or_introl eq_refl))
        as (w2 & Hrun & He).
      exists w2. split; [done|]. rewrite He. simpl. by rewrite Hm.
  - rewrite (execMessage_AsciiMathToMml _ _ _ Hc Ha), asciiMathToMml_run.
    eexists _, _. split; [done|]. split; [|split].
    + rewrite emitted_app. simpl. by rewrite app_nil_r.
    + by apply new_request_continuation.
    + intros w'.
      destruct (call_each_continuation channel_ (field msg "id")
                  (field (field msg "args") "id") _ [a] w' (or_intror eq_refl))
        as (w2 & Hrun & He).
      exists w2. split; [done|]. rewrite He. simpl. by rewrite Hm.
Qed.

End Claims.

Lemma conversion_yields_one_envelope_witness :
  exists k w1,
    execMessage (Channel 0) tex_request (fresh_page true) = (Normal tt, w1) /\
    emitted w1 = [] /\
    omap requested_continuation (effects w1) = [k] /\
    forall w', exists w2,
      call_each (call_continuation (Channel 0) k) [[VString "<math>...</math>"]] w'
        = (Normal tt, w2) /\
      emitted w2 = emitted w' ++
        [VObject {[ "cmd" := VString "NodeMml"; "id" := VString "2";
                    "args" := VObject {[ "mathml" := VString "<math>...</math>";
                                         "elementId" := VString "elemA" ]} ]}].
Proof.
  apply (conversion_yields_one_envelope (Channel 0) tex_request
           (VString "<math>...</math>") [[VString "<math>...</math>"]] (fresh_page true)).
  - left; reflexivity.
  - reflexivity.
  - reflexivity.
  - repeat constructor.
Defined.

Section Enumeration.

Variable channel_ : MessageChannel.

(** C6: an AllJax envelope with correlation id K hands the collaborator one
    callback; for as many nodes as the collaborator reports by calling it,
    that many Result Envelopes are posted, in the same order, each with id K
    and with the markup and element id of the node it reports.  The element
    ids are relayed unchanged, so they are pairwise distinct when those of
    the enumeration are. *)
Theorem alljax_one_envelope_per_node msg nodes w :
  field msg "cmd" = VString "AllJax" ->
  exists f w1,
    execMessage channel_ msg w = (Normal tt, w1) /\
    emitted w1 = emitted w /\
    omap enumeration_callback (effects w1) =
      omap enumeration_callback (effects w) ++ [f] /\
    forall w', exists w2 new,
      call_each (call_callback channel_ f) nodes w' = (Normal tt, w2) /\
      emitted w2 = emitted w' ++ new /\
      length new = length nodes /\
      Forall (fun m => field m "cmd" = VString "NodeMml" /\
                       field m "id" = field msg "id") new /\
      map (fun m => field (field m "args") "mathml") new = map (argument 0) nodes /\
      map (fun m => field (field m "args") "elementId") new = map (argument 1) nodes /\
      (NoDup (map (argument 1) nodes) ->
       NoDup (map (fun m => field (field m "args") "elementId") new)).
Proof.
  intros Hc. rewrite (execMessage_AllJax _ _ _ Hc), getAllJax_run.
  eexists _, _. split; [done|]. split; [|split].
  - rewrite emitted_app. simpl. by rewrite app_nil_r.
  - simpl. rewrite omap_app. simpl. done.
  - intros w'.
    destruct (call_each_callback channel_ (field msg "id") nodes w')
      as (w2 & Hrun & _ & He & _).
    exists w2, (map (fun a => forwarded a (getMathmlCallback_ (field msg "id"))) nodes).
    split; [done|]. split; [done|].
    assert (map (fun m => field (field m "args") "elementId")
              (map (fun a => forwarded a (getMathmlCallback_ (field msg "id"))) nodes)
            = map (argument 1) nodes) as Hids.
    { rewrite map_map. by apply map_ext. }
    split; [by rewrite length_map|]. split; [|split; [|split]].
    + apply Forall_map. by apply Forall_true.
    + rewrite map_map. by apply map_ext.
    + done.
    + by rewrite Hids.
Qed.

End Enumeration.

Lemma alljax_one_envelope_per_node_witness :
  field alljax_request "cmd" = VString "AllJax" /\
  exists f w1,
    execMessage (Channel 0) alljax_request (fresh_page true) = (Normal tt, w1) /\
    emitted w1 = [] /\
    omap enumeration_callback (effects w1) = [f] /\
    forall w', exists w2 new,
      call_each (call_callback (Channel 0) f) two_nodes w' = (Normal tt, w2) /\
      emitted w2 = emitted w' ++ new /\
      length new = 2 /\
      Forall (fun m => field m "cmd" = VString "NodeMml" /\
                       field m "id" = VString "7") new /\
      map (fun m => field (field m "args") "mathml") new =
        [VString "<math>a</math>"; VString "<math>b</math>"] /\
      map (fun m => field (field m "args") "elementId") new =
        [VString "n1"; VString "n2"] /\
      NoDup (map (fun m => field (field m "args") "elementId") new).
Proof.
  split; [reflexivity|].
  destruct (alljax_one_envelope_per_node (Channel 0) alljax_request two_nodes
              (fresh_page true) eq_refl) as (f & w1 & Hrun & He & Hf & Hcalls).
  exists f, w1. split; [exact Hrun|]. split; [exact He|]. split; [exact Hf|].
  intros w'. destruct (Hcalls w') as (w2 & new & H1 & H2 & H3 & H4 & H5 & H6 & H7).
  exists w2, new. split; [exact H1|]. split; [exact H2|]. split; [exact H3|].
  split; [exact H4|]. split; [exact H5|]. split; [exact H6|].
  apply H7. apply NoDup_cons. split; [|apply NoDup_singleton].
  intros Hin. apply list_elem_of_singleton in Hin. discriminate Hin.
Defined.

Section Signals.

Variable channel_ : MessageChannel.

(** One firing: every callback registered for the signal posts its own
    envelope, in registration order, and the registrations stay. *)
Lemma call_each_subscriber arguments fs w :
  exists w',
    call_each (fun f => call_callback channel_ f arguments) fs w = (Normal tt, w') /\
    emitted w' = emitted w ++ map (forwarded arguments) fs /\
    forall signal, subscribers signal w' = subscribers signal w.
Proof.
  revert w. induction fs as [|[K] fs IH]; intros w.
  - exists w. simpl. by rewrite app_nil_r.
  - cbn [call_each]. unfold mbind, M_bind. rewrite (call_callback_run channel_ K).
    match goal with |- context [call_each _ fs ?w1] =>
      destruct (IH w1) as (w' & -> & He & Hs) end.
    exists w'. split; [done|]. split.
    + rewrite He, emitted_app. simpl. by rewrite <- app_assoc.
    + intros signal. rewrite Hs. unfold subscribers; simpl.
      rewrite omap_app. simpl. by rewrite app_nil_r.
Qed.

Lemma fire_run signal arguments w :
  exists w',
    fire channel_ signal arguments w = (Normal tt, w') /\
    emitted w' = emitted w ++ map (forwarded arguments) (subscribers signal w) /\
    forall signal', subscribers signal' w' = subscribers signal' w.
Proof. unfold fire. apply call_each_subscriber. Qed.

(** Any number of firings. *)
Lemma fire_each_run signal firings w :
  exists w',
    call_each (fire channel_ signal) firings w = (Normal tt, w') /\
    emitted w' =
      emitted w ++
      concat (map (fun a => map (forwarded a) (subscribers signal w)) firings) /\
    forall signal', subscribers signal' w' = subscribers signal' w.
Proof.
  revert w. induction firings as [|a firings IH]; intros w.
  - exists w. simpl. by rewrite app_nil_r.
  - cbn [call_each]. unfold mbind, M_bind.
    destruct (fire_run signal a w) as (w1 & -> & He1 & Hs1).
    destruct (IH w1) as (w' & -> & He & Hs).
    exists w'. split; [done|]. split.
    + rewrite He, He1, Hs1. simpl. by rewrite <- app_assoc.
    + intros signal'. by rewrite Hs, Hs1.
Qed.

Lemma registerSignal_subscribers callbackId signal w present n hs :
  subscribers signal
    (mkWorld present n
       (effects w ++ [ExtRegisterSignal (getMathmlCallback_ callbackId) (VString signal)]) hs)
  = subscribers signal w ++ [getMathmlCallback_ callbackId].
Proof.
  unfold subscribers; simpl. rewrite omap_app. simpl.
  by rewrite bool_decide_eq_true_2.
Qed.

(** C2: a RegSig envelope with correlation id K for signal S registers a
    callback of its own with the collaborator and posts nothing.  From then
    on every firing of S posts one new Result Envelope with id K, next to
    the one of each earlier registration on S; a list of N firings, of any
    length, posts N such envelopes.  A second registration with id K' on the
    same signal gets its own envelope at every firing, and the first
    registration keeps getting the same envelopes as before. *)
Theorem regsig_forwards_every_firing msg msg' signal firings w :
  field msg "cmd" = VString "RegSig" ->
  field (field msg "args") "sig" = VString signal ->
  field msg' "cmd" = VString "RegSig" ->
  field (field msg' "args") "sig" = VString signal ->
  let K := field msg "id" in
  let K' := field msg' "id" in
  (exists w1 w2,
     execMessage channel_ msg w = (Normal tt, w1) /\
     emitted w1 = emitted w /\
     subscribers signal w1 = subscribers signal w ++ [getMathmlCallback_ K] /\
     call_each (fire channel_ signal) firings w1 = (Normal tt, w2) /\
     emitted w2 =
       emitted w ++
       concat (map (fun a => map (forwarded a) (subscribers signal w) ++
                             [node_envelope K (argument 0 a) (argument 1 a)]) firings) /\
     (subscribers signal w = [] -> length (emitted w2) = length (emitted w) + length firings)) /\
  (exists w1 w2,
     (execMessage channel_ msg;; execMessage channel_ msg') w = (Normal tt, w1) /\
     emitted w1 = emitted w /\
     call_each (fire channel_ signal) firings w1 = (Normal tt, w2) /\
     emitted w2 =
       emitted w ++
       concat (map (fun a => map (forwarded a) (subscribers signal w) ++
                             [node_envelope K (argument 0 a) (argument 1 a);
                              node_envelope K' (argument 0 a) (argument 1 a)]) firings)).
Proof.
  intros Hc Hs Hc' Hs' K K'.
  pose proof (field_string_object _ _ _ Hs) as Ha.
  pose proof (field_string_object _ _ _ Hs') as Ha'.
  split.
  - rewrite (execMessage_RegSig _ _ _ Hc Ha), registerSignal_run, Hs.
    match goal with |- context [(Normal tt, ?w1) = _] =>
      destruct (fire_each_run signal firings w1) as (w2 & Hrun & He & _);
      exists w1, w2 end.
    split; [done|].
    rewrite registerSignal_subscribers in He.
    split_and!.
    + rewrite emitted_app. simpl. by rewrite app_nil_r.
    + apply registerSignal_subscribers.
    + exact Hrun.
    + rewrite He, emitted_app. simpl. rewrite app_nil_r. f_equal. f_equal.
      apply map_ext. intros a. by rewrite map_app.
    + intros Hnone. rewrite He, emitted_app, Hnone. simpl.
      rewrite app_nil_r, length_app. f_equal.
      clear. induction firings as [|a l IH]; [done|]. simpl. by rewrite IH.
  - unfold mbind, M_bind.
    rewrite (execMessage_RegSig _ _ _ Hc Ha), registerSignal_run, Hs.
    rewrite (execMessage_RegSig _ _ _ Hc' Ha'), registerSignal_run, Hs'.
    match goal with |- context [(Normal tt, ?w1) = _] =>
      destruct (fire_each_run signal firings w1) as (w2 & Hrun & He & _);
      exists w1, w2 end.
    split; [done|].
    rewrite !registerSignal_subscribers in He.
    split_and!.
    + rewrite emitted_app. rewrite emitted_app. simpl. by rewrite !app_nil_r.
    + exact Hrun.
    + rewrite He. rewrite emitted_app. rewrite emitted_app. simpl. rewrite !app_nil_r.
      f_equal. f_equal.
      apply map_ext. intros a. rewrite !map_app. by rewrite <- app_assoc.
Qed.

End Signals.

Lemma regsig_forwards_every_firing_witness :
  exists w1 w2,
    (execMessage (Channel 0) (regsig_request "5");;
     execMessage (Channel 0) (regsig_request "6")) (fresh_page true) = (Normal tt, w1) /\
    emitted w1 = [] /\
    call_each (fire (Channel 0) "New Math") two_firings w1 = (Normal tt, w2) /\
    emitted w2 =
      [ node_envelope (VString "5") (VString "<math>a</math>") (VString "n1");
        node_envelope (VString "6") (VString "<math>a</math>") (VString "n1");
        node_envelope (VString "5") (VString "<math>b</math>") (VString "n2");
        node_envelope (VString "6") (VString "<math>b</math>") (VString "n2") ].
Proof.
  exact (proj2 (regsig_forwards_every_firing (Channel 0)
                  (regsig_request "5") (regsig_request "6") "New Math" two_firings
                  (fresh_page true) eq_refl eq_refl eq_refl eq_refl)).
Defined.

Section Active.

Variable channel_ : MessageChannel.

(** C3: an Active envelope with correlation id K is answered within the
    dispatch, before [execMessage] returns, by exactly one Result Envelope
    [{cmd: 'Active', id: K, args: {status: b}}], where b is the presence flag
    of the collaborator and [status] is the only property of [args]. *)
Theorem active_answers_at_once msg w :
  field msg "cmd" = VString "Active" ->
  let answer :=
    VObject {[ "cmd" := VString "Active"; "id" := field msg "id";
               "args" := VObject {[ "status" := VBool (mathjax_present w) ]} ]} in
  exists w',
    execMessage channel_ msg w = (Normal tt, w') /\
    effects w' = effects w ++ [ExtIsActive; PortPostMessage (port1 channel_) answer] /\
    emitted w' = emitted w ++ [answer].
Proof.
  intros Hc answer. rewrite (execMessage_Active _ _ _ Hc), isActive_run.
  eexists. split; [done|]. split; [done|]. by rewrite emitted_app.
Qed.

End Active.

Lemma active_answers_at_once_witness :
  field active_request "cmd" = VString "Active" /\
  exists w',
    execMessage (Channel 0) active_request (fresh_page true) = (Normal tt, w') /\
    effects w' =
      [ExtIsActive;
       PortPostMessage (port1 (Channel 0))
         (VObject {[ "cmd" := VString "Active"; "id" := VString "1";
                     "args" := VObject {[ "status" := VBool true ]} ]})] /\
    emitted w' =
      [VObject {[ "cmd" := VString "Active"; "id" := VString "1";
                  "args" := VObject {[ "status" := VBool true ]} ]}].
Proof.
  split; [reflexivity|].
  apply (active_answers_at_once (Channel 0) active_request (fresh_page true)).
  reflexivity.
Defined.

Section Routing.

Variable channel_ : MessageChannel.

Lemma handler_of_known name msg :
  name ∈ command_names -> is_Some (handler_of name msg).
Proof.
  unfold command_names. rewrite !elem_of_cons.
  intros [->|[->|[->|[->|[->|[->|Hn]]]]]]; try (by eexists).
  by apply elem_of_nil in Hn.
Qed.

(** C4 (amended): a message whose [cmd] is none of the six command names
    is dropped: no handler is entered, nothing is requested or posted, no
    error is raised, the world is unchanged.  A message whose [cmd] is one of
    the six names enters the handler of that name and no other, with the
    arguments read from the message, provided that the command is Active,
    AllJax or InjectScripts, or that [args] is neither [undefined] nor [null];
    otherwise reading from [args] throws a TypeError before any handler is
    entered. *)
Theorem dispatch_by_command msg w :
  nullish msg = false ->
  ((forall name, name ∈ command_names -> field msg "cmd" <> VString name) ->
   execMessage channel_ msg w = (Normal tt, w)) /\
  (forall name h,
     name ∈ command_names ->
     field msg "cmd" = VString name ->
     handler_of name msg = Some h ->
     (name ∉ reads_args \/ nullish (field msg "args") = false ->
      exists w',
        execMessage channel_ msg w = (Normal tt, w') /\
        entered w' = entered w ++ [h]) /\
     (name ∈ reads_args -> nullish (field msg "args") = true ->
      execMessage channel_ msg w = (Throw TypeError, w))).
Proof.
  intros Hm. split; [by apply execMessage_unknown|].
  intros name h Hn Hc Hh. split.
  - intros Hargs. unfold command_names in Hn. rewrite !elem_of_cons in Hn.
    destruct Hn as [->|[->|[->|[->|[->|[->|Hn]]]]]];
      [| | | | | |by apply elem_of_nil in Hn]; injection Hh as <-.
    + rewrite (execMessage_Active _ _ _ Hc), isActive_run. by eexists.
    + rewrite (execMessage_AllJax _ _ _ Hc), getAllJax_run. by eexists.
    + destruct Hargs as [Hr|Ha]; [exfalso; apply Hr; unfold reads_args; set_solver|].
      rewrite (execMessage_AsciiMathToMml _ _ _ Hc Ha), asciiMathToMml_run. by eexists.
    + rewrite (execMessage_InjectScripts _ _ _ Hc), injectScripts_run. by eexists.
    + destruct Hargs as [Hr|Ha]; [exfalso; apply Hr; unfold reads_args; set_solver|].
      rewrite (execMessage_RegSig _ _ _ Hc Ha), registerSignal_run. by eexists.
    + destruct Hargs as [Hr|Ha]; [exfalso; apply Hr; unfold reads_args; set_solver|].
      rewrite (execMessage_TexToMml _ _ _ Hc Ha), texToMml_run. by eexists.
  - intros Hr Ha. by eapply execMessage_no_args.
Qed.

End Routing.

Lemma dispatch_by_command_witness :
  nullish bogus_request = false /\
  execMessage (Channel 0) bogus_request (fresh_page true) = (Normal tt, fresh_page true) /\
  nullish tex_request_without_args = false /\
  execMessage (Channel 0) tex_request_without_args (fresh_page true)
    = (Throw TypeError, fresh_page true).
Proof.
  split; [reflexivity|]. split; [|split; [reflexivity|]].
  - apply (proj1 (dispatch_by_command (Channel 0) bogus_request (fresh_page true) eq_refl)).
    intros name Hn Hc. injection Hc as <-.
    repeat (apply elem_of_cons in Hn as [Hn|Hn]; [discriminate Hn|]).
    by apply elem_of_nil in Hn.
  - refine (proj2 (proj2 (dispatch_by_command (Channel 0) tex_request_without_args
                            (fresh_page true) eq_refl)
                     "TexToMml" _ _ eq_refl eq_refl) _ eq_refl).
    + do 5 apply list_elem_of_further. apply list_elem_of_here.
    + do 2 apply list_elem_of_further. apply list_elem_of_here.
Defined.

(** C4 as stated fails: [cmd] is the known name TexToMml, yet the dispatch
    of a message without [args] enters no handler at all. *)
Lemma known_command_without_handler :
  field tex_request_without_args "cmd" = VString "TexToMml" /\
  ~ (exists w',
       execMessage (Channel 0) tex_request_without_args (fresh_page true) = (Normal tt, w') /\
       entered w' = [Enter_texToMml (VString "1") VUndefined VUndefined]) /\
  entered (execMessage (Channel 0) tex_request_without_args (fresh_page true)).2 = [].
Proof.
  split; [reflexivity|]. split; [|reflexivity].
  intros (w' & Hrun & _). discriminate Hrun.
Qed.

Section Faults.

Variable channel_ : MessageChannel.

(** C8 (amended): for AsciiMathToMml, RegSig and TexToMml, a message whose
    [args] is missing ([undefined]) or [null] makes the dispatch throw a
    TypeError while it reads from [args], before the handler is entered; the
    error leaves [execMessage] and the listener that called it, nothing is
    requested of the collaborator and no Result Envelope is posted.  Any
    other [args] raises no error, whatever properties it lacks: the dispatch
    returns normally and the handler is entered with [undefined] in their
    place. *)
Theorem missing_args_fault msg name w :
  name ∈ reads_args ->
  field msg "cmd" = VString name ->
  (nullish (field msg "args") = true ->
   execMessage channel_ msg w = (Throw TypeError, w) /\
   call_listener channel_ ExecMessageListener (VObject {[ "data" := msg ]}) w
     = (Throw TypeError, w)) /\
  (nullish (field msg "args") = false ->
   exists w' h,
     execMessage channel_ msg w = (Normal tt, w') /\
     handler_of name msg = Some h /\
     entered w' = entered w ++ [h] /\
     emitted w' = emitted w).
Proof.
  intros Hr Hc. split.
  - intros Ha.
    assert (execMessage channel_ msg w = (Throw TypeError, w)) as Hx
      by (by eapply execMessage_no_args).
    split; [done|].
    unfold call_listener, mbind, M_bind. by rewrite get_prop_field.
  - intros Ha. unfold reads_args in Hr. rewrite !elem_of_cons in Hr.
    destruct Hr as [->|[->|[->|Hr]]]; [| | |by apply elem_of_nil in Hr].
    + rewrite (execMessage_AsciiMathToMml _ _ _ Hc Ha), asciiMathToMml_run.
      eexists _, _. split_and!; [done..|].
      rewrite emitted_app. simpl. by rewrite app_nil_r.
    + rewrite (execMessage_RegSig _ _ _ Hc Ha), registerSignal_run.
      eexists _, _. split_and!; [done..|].
      rewrite emitted_app. simpl. by rewrite app_nil_r.
    + rewrite (execMessage_TexToMml _ _ _ Hc Ha), texToMml_run.
      eexists _, _. split_and!; [done..|].
      rewrite emitted_app. simpl. by rewrite app_nil_r.
Qed.

End Faults.

Lemma missing_args_fault_witness :
  field tex_request_without_args "cmd" = VString "TexToMml" /\
  nullish (field tex_request_without_args "args") = true /\
  execMessage (Channel 0) tex_request_without_args (fresh_page true)
    = (Throw TypeError, fresh_page true) /\
  call_listener (Channel 0) ExecMessageListener
    (VObject {[ "data" := tex_request_without_args ]}) (fresh_page true)
    = (Throw TypeError, fresh_page true).
Proof.
  split; [reflexivity|]. split; [reflexivity|].
  refine (proj1 (missing_args_fault (Channel 0) tex_request_without_args "TexToMml"
                   (fresh_page true) _ eq_refl) eq_refl).
  do 2 apply list_elem_of_further. apply list_elem_of_here.
Defined.

(** C8 as stated fails: the properties [alt] and [id] are missing from
    [args], the dispatch reads both, and yet no error is raised: the
    conversion is requested with [undefined], and the Result Envelope is
    posted once the continuation is called. *)
Lemma missing_field_is_no_fault :
  field (field tex_request_empty_args "args") "alt" = VUndefined /\
  field (field tex_request_empty_args "args") "id" = VUndefined /\
  execMessage (Channel 0) tex_request_empty_args (fresh_page true) =
    (Normal tt,
     mkWorld true 0
       [ExtTexToMml VUndefined (VBool true)
          (TexToMmlContinuation (VString "2") VUndefined)]
       [Enter_texToMml (VString "2") VUndefined VUndefined]) /\
  emitted
    ((execMessage (Channel 0) tex_request_empty_args;;
      call_continuation (Channel 0) (TexToMmlContinuation (VString "2") VUndefined)
        [VString "<math/>"]) (fresh_page true)).2
  = [node_envelope (VString "2") (VString "<math/>") VUndefined].
Proof. repeat split; reflexivity. Qed.

Section Independence.

Variable channel_ : MessageChannel.

(** C9: for Active, AllJax and InjectScripts the dispatch does not look at
    [args]: two messages with the same [cmd] and the same [id] are handled
    alike, whatever their [args] (present or not), and the dispatch returns
    normally. *)
Theorem args_are_ignored msg1 msg2 w :
  field msg1 "cmd" ∈ [VString "Active"; VString "AllJax"; VString "InjectScripts"] ->
  field msg2 "cmd" = field msg1 "cmd" ->
  field msg2 "id" = field msg1 "id" ->
  execMessage channel_ msg1 w = execMessage channel_ msg2 w /\
  exists w', execMessage channel_ msg1 w = (Normal tt, w').
Proof.
  intros Hc Hc2 Hid. rewrite !elem_of_cons in Hc.
  destruct Hc as [Hc|[Hc|[Hc|Hc]]]; [| | |by apply elem_of_nil in Hc];
    rewrite Hc in Hc2.
  - rewrite (execMessage_Active _ _ _ Hc), (execMessage_Active _ _ _ Hc2), Hid.
    split; [done|]. rewrite isActive_run. by eexists.
  - rewrite (execMessage_AllJax _ _ _ Hc), (execMessage_AllJax _ _ _ Hc2), Hid.
    split; [done|]. rewrite getAllJax_run. by eexists.
  - rewrite (execMessage_InjectScripts _ _ _ Hc), (execMessage_InjectScripts _ _ _ Hc2).
    split; [done|]. rewrite injectScripts_run. by eexists.
Qed.

End Independence.

Lemma args_are_ignored_witness :
  execMessage (Channel 0) alljax_request (fresh_page true) =
  execMessage (Channel 0) alljax_request_without_args (fresh_page true) /\
  exists w', execMessage (Channel 0) alljax_request (fresh_page true) = (Normal tt, w').
Proof.
  apply (args_are_ignored (Channel 0) alljax_request alljax_request_without_args
           (fresh_page true)).
  - apply list_elem_of_further, list_elem_of_here.
  - reflexivity.
  - reflexivity.
Defined.

Section Invariants.

Variable channel_ : MessageChannel.

Lemma bridge_effect_display e : bridge_effect channel_ e -> display_mode e.
Proof. intros [] display; simpl; congruence. Qed.

Lemma bridge_effect_posted e m :
  bridge_effect channel_ e -> posted e = Some m ->
  result_envelope m /\ bridge_envelope m.
Proof.
  intros [] [= <-].
  - split; [|left; eauto].
    eexists _, _, _. split; [reflexivity|]. apply list_elem_of_here.
  - split; [|right; eauto].
    eexists _, _, _. split; [reflexivity|].
    apply list_elem_of_further, list_elem_of_here.
Qed.

Lemma bridge_effects_emitted w :
  Forall (bridge_effect channel_) (effects w) ->
  Forall (fun m => result_envelope m /\ bridge_envelope m) (emitted w).
Proof.
  unfold emitted. induction (effects w) as [|e es IH]; intros Hes; [constructor|].
  apply List.Forall_cons_iff in Hes as [He Hes]. simpl.
  destruct (posted e) as [m|] eqn:Hp; [|by apply IH].
  constructor; [by eapply bridge_effect_posted | by apply IH].
Qed.

End Invariants.

Section Display.

Variable channel_ : MessageChannel.

(** C10: every conversion the bridge asks for is asked for in display mode.
    A TexToMml or AsciiMathToMml envelope (with [args]) makes one request
    to the collaborator, the conversion of [args.alt] with the display flag
    [true]; and whatever message is dispatched, and whatever the host and the
    collaborator make the bridge do after the script is loaded, no conversion
    is ever requested with another flag. *)
Theorem conversions_in_display_mode msg w :
  (field msg "cmd" = VString "TexToMml" ->
   nullish (field msg "args") = false ->
   exists k,
     effects (execMessage channel_ msg w).2 =
     effects w ++ [ExtTexToMml (field (field msg "args") "alt") (VBool true) k]) /\
  (field msg "cmd" = VString "AsciiMathToMml" ->
   nullish (field msg "args") = false ->
   exists k,
     effects (execMessage channel_ msg w).2 =
     effects w ++ [ExtAsciiMathToMml (field (field msg "args") "alt") (VBool true) k]) /\
  (exists new,
     effects (execMessage channel_ msg w).2 = effects w ++ new /\
     Forall display_mode new) /\
  (forall present evs,
     Forall display_mode (effects (run (Channel 0) evs (load (fresh_page present)).2))).
Proof.
  split_and!.
  - intros Hc Ha. rewrite (execMessage_TexToMml _ _ _ Hc Ha), texToMml_run. by eexists.
  - intros Hc Ha.
    rewrite (execMessage_AsciiMathToMml _ _ _ Hc Ha), asciiMathToMml_run. by eexists.
  - destruct (execMessage_effects channel_ msg w) as (new & Hnew & Hok).
    exists new. split; [done|].
    eapply List.Forall_impl; [|exact Hok]. apply bridge_effect_display.
  - intros present evs.
    eapply List.Forall_impl; [apply bridge_effect_display|].
    apply run_effects, load_effects.
Qed.

End Display.

Lemma conversions_in_display_mode_witness :
  exists k,
    effects (execMessage (Channel 0) tex_request (fresh_page true)).2 =
    [ExtTexToMml (VString "x^2") (VBool true) k].
Proof.
  exact (proj1 (conversions_in_display_mode (Channel 0) tex_request (fresh_page true))
           eq_refl eq_refl).
Defined.

Section Shaping.

Variable channel_ : MessageChannel.

(** C5: whatever the host and the collaborator make the bridge do after
    the script is loaded, every message it posts has exactly the properties
    [cmd], [id] and [args], with [cmd] either 'Active' or 'NodeMml', and is one
    of the two envelopes the bridge builds.  The markup results all come from
    the function that [getMathmlCallback_] returns: called with a markup and
    an element id it posts [{cmd: 'NodeMml', id: K, args: {mathml, elementId}}]
    for the correlation id K it was made for; [getAllJax] and [registerSignal]
    hand that function to the collaborator, and the continuations of
    [texToMml] and [asciiMathToMml] call it with the markup they receive and
    the element id of the request. *)
Theorem results_shaped_in_one_place :
  (forall present evs,
     Forall (fun m => result_envelope m /\ bridge_envelope m)
       (emitted (run (Channel 0) evs (load (fresh_page present)).2))) /\
  (forall callbackId mml id w,
     call_callback channel_ (getMathmlCallback_ callbackId) [mml; id] w =
     (Normal tt, mkWorld (mathjax_present w) (channels w)
        (effects w ++ [PortPostMessage (port1 channel_)
           (VObject {[ "cmd" := VString "NodeMml"; "id" := callbackId;
                       "args" := VObject {[ "mathml" := mml; "elementId" := id ]} ]})])
        (entered w))) /\
  (forall callbackId w,
     effects (getAllJax callbackId w).2 =
     effects w ++ [ExtGetAllJax (getMathmlCallback_ callbackId)]) /\
  (forall callbackId signal w,
     effects (registerSignal callbackId signal w).2 =
     effects w ++ [ExtRegisterSignal (getMathmlCallback_ callbackId) signal]) /\
  (forall callbackId expression cvoxId w, exists k k',
     effects (texToMml callbackId expression cvoxId w).2 =
       effects w ++ [ExtTexToMml expression (VBool true) k] /\
     effects (asciiMathToMml callbackId expression cvoxId w).2 =
       effects w ++ [ExtAsciiMathToMml expression (VBool true) k'] /\
     forall arguments w',
       call_continuation channel_ k arguments w' =
         call_callback channel_ (getMathmlCallback_ callbackId)
           [argument 0 arguments; cvoxId] w' /\
       call_continuation channel_ k' arguments w' =
         call_callback channel_ (getMathmlCallback_ callbackId)
           [argument 0 arguments; cvoxId] w').
Proof.
  split_and!.
  - intros present evs. apply (bridge_effects_emitted (Channel 0)).
    apply run_effects, load_effects.
  - intros. apply call_callback_run.
  - intros. by rewrite getAllJax_run.
  - intros. by rewrite registerSignal_run.
  - intros. rewrite texToMml_run, asciiMathToMml_run.
    eexists _, _. split_and!; [done..|]. intros arguments w'. by split.
Qed.

End Shaping.

Section Initialisation.

Variable channel_ : MessageChannel.

Lemma transferred_app w new present n hs :
  transferred (mkWorld present n (effects w ++ new) hs) =
  transferred w ++ concat (omap broadcast_ports new).
Proof. unfold transferred. cbn [effects]. by rewrite omap_app, concat_app. Qed.

(** The first hand-over of port2 succeeds. *)
Lemma initMessage_run w :
  detached (port2 channel_) w = false ->
  initMessage channel_ w =
  (Normal tt, mkWorld (mathjax_present w) (channels w)
     (effects w ++ [SetOnmessage (port1 channel_) ExecMessageListener;
                    WindowPostMessage (VString "cvox.MathJaxPortSetup") [port2 channel_]
                      (VString "*")])
     (entered w)).
Proof.
  intros Hd. unfold initMessage, mbind, M_bind, window_postMessage. cbn [emit existsb].
  assert (detached (port2 channel_)
            (mkWorld (mathjax_present w) (channels w)
               (effects w ++ [SetOnmessage (port1 channel_) ExecMessageListener])
               (entered w)) = false) as ->.
  { unfold detached in *. rewrite transferred_app. simpl. by rewrite app_nil_r. }
  unfold emit; simpl. by rewrite <- app_assoc.
Qed.

(** Any later one fails, after the listener was assigned again. *)
Lemma initMessage_again w :
  detached (port2 channel_) w = true ->
  initMessage channel_ w =
  (Throw DataCloneError, mkWorld (mathjax_present w) (channels w)
     (effects w ++ [SetOnmessage (port1 channel_) ExecMessageListener])
     (entered w)).
Proof.
  intros Hd. unfold initMessage, mbind, M_bind, window_postMessage. cbn [emit existsb].
  assert (detached (port2 channel_)
            (mkWorld (mathjax_present w) (channels w)
               (effects w ++ [SetOnmessage (port1 channel_) ExecMessageListener])
               (entered w)) = true) as ->.
  { unfold detached in *. rewrite transferred_app. simpl. by rewrite app_nil_r. }
  done.
Qed.

(** C7 (amended): [initMessage] creates no channel.  The one channel is
    created when the script is loaded.  The first call of [initMessage]
    assigns the listener of that channel's port1 and broadcasts the sentinel
    with its port2.  A second call assigns the same listener again and then
    throws a DataCloneError at [window.postMessage], because port2 was handed
    over by the first call: there is one channel and one broadcast, not two.
    The second call does not repeat what the first did, so initialisation is
    not idempotent, and no call returns a value. *)
Theorem initMessage_twice_one_channel w :
  detached (port2 channel_) w = false ->
  let assign := SetOnmessage (port1 channel_) ExecMessageListener in
  let broadcast :=
    WindowPostMessage (VString "cvox.MathJaxPortSetup") [port2 channel_] (VString "*") in
  exists w1 w2,
    initMessage channel_ w = (Normal tt, w1) /\
    effects w1 = effects w ++ [assign; broadcast] /\
    initMessage channel_ w1 = (Throw DataCloneError, w2) /\
    (initMessage channel_;; initMessage channel_) w = (Throw DataCloneError, w2) /\
    effects w2 = effects w ++ [assign; broadcast; assign] /\
    channels w2 = channels w /\
    omap broadcast_ports (effects w2) =
      omap broadcast_ports (effects w) ++ [[port2 channel_]] /\
    channels (load w).2 = S (channels w).
Proof.
  intros Hd assign broadcast.
  pose proof (initMessage_run w Hd) as H1.
  match type of H1 with _ = (_, ?w1) =>
    assert (detached (port2 channel_) w1 = true) as Hd1;
    [|pose proof (initMessage_again w1 Hd1) as H2; exists w1] end.
  { unfold detached. rewrite transferred_app. apply bool_decide_eq_true.
    apply elem_of_app. right. apply list_elem_of_here. }
  eexists. split; [exact H1|]. split; [done|]. split; [exact H2|]. split_and!.
  - unfold mbind, M_bind. by rewrite H1.
  - cbn [effects]. by rewrite <- app_assoc.
  - done.
  - cbn [effects]. rewrite <- app_assoc, omap_app. done.
  - unfold load, new_MessageChannel, initMessage, window_postMessage.
    unfold mbind, M_bind, emit. cbn [existsb].
    by match goal with |- context [if ?b then _ else _] => destruct b end.
Qed.

End Initialisation.

Lemma initMessage_twice_one_channel_witness :
  detached (port2 (Channel 0)) (fresh_page true) = false /\
  exists w1 w2,
    initMessage (Channel 0) (fresh_page true) = (Normal tt, w1) /\
    effects w1 =
      [SetOnmessage (port1 (Channel 0)) ExecMessageListener;
       WindowPostMessage (VString "cvox.MathJaxPortSetup") [port2 (Channel 0)]
         (VString "*")] /\
    initMessage (Channel 0) w1 = (Throw DataCloneError, w2) /\
    (initMessage (Channel 0);; initMessage (Channel 0)) (fresh_page true)
      = (Throw DataCloneError, w2) /\
    effects w2 =
      [SetOnmessage (port1 (Channel 0)) ExecMessageListener;
       WindowPostMessage (VString "cvox.MathJaxPortSetup") [port2 (Channel 0)]
         (VString "*");
       SetOnmessage (port1 (Channel 0)) ExecMessageListener] /\
    channels w2 = 0 /\
    omap broadcast_ports (effects w2) = [[port2 (Channel 0)]] /\
    channels (load (fresh_page true)).2 = 1.
Proof.
  split; [reflexivity|].
  apply (initMessage_twice_one_channel (Channel 0) (fresh_page true)).
  reflexivity.
Defined.

(** C7 as stated fails: after the script is loaded (which calls
    [initMessage] once), a second call throws; the page is left with the one
    channel it had and with the one broadcast of its port2. *)
Lemma initMessage_again_no_new_channel :
  let loaded := (load (fresh_page true)).2 in
  let again := initMessage (Channel 0) loaded in
  channels loaded = 1 /\
  again.1 = Throw DataCloneError /\
  channels again.2 = 1 /\
  channels again.2 <> 2 /\
  omap broadcast_ports (effects again.2) = [[port2 (Channel 0)]] /\
  omap broadcast_ports (effects again.2) <> [[port2 (Channel 0)]; [port2 (Channel 1)]].
Proof. repeat split; discriminate. Qed.

(** ** The dispatch, case by case *)

Section Cases.

Variable channel_ : MessageChannel.

Lemma execMessage_nullish msg w :
  nullish msg = true -> execMessage channel_ msg w = (Throw TypeError, w).
Proof.
  intros Hm. unfold execMessage, mbind, M_bind. by rewrite (get_prop_nullish _ _ _ Hm).
Qed.

Lemma extend_nil w : extend w [] [] = w.
Proof. destruct w. unfold extend; simpl. by rewrite !app_nil_r. Qed.

(** Every way a dispatch can go, with the condition under which it does. *)
Lemma execMessage_by_cases msg w :
  (nullish msg = true /\ execMessage channel_ msg w = (Throw TypeError, w)) \/
  (nullish msg = false /\
   (forall name, name ∈ command_names -> field msg "cmd" <> VString name) /\
   execMessage channel_ msg w = (Normal tt, w)) \/
  (exists name, name ∈ reads_args /\ field msg "cmd" = VString name /\
   nullish (field msg "args") = true /\
   execMessage channel_ msg w = (Throw TypeError, w)) \/
  (field msg "cmd" = VString "Active" /\
   execMessage channel_ msg w = isActive channel_ (field msg "id") w) \/
  (field msg "cmd" = VString "AllJax" /\
   execMessage channel_ msg w = getAllJax (field msg "id") w) \/
  (field msg "cmd" = VString "InjectScripts" /\
   execMessage channel_ msg w = injectScripts w) \/
  (field msg "cmd" = VString "AsciiMathToMml" /\ nullish (field msg "args") = false /\
   execMessage channel_ msg w =
     asciiMathToMml (field msg "id") (field (field msg "args") "alt")
       (field (field msg "args") "id") w) \/
  (field msg "cmd" = VString "RegSig" /\ nullish (field msg "args") = false /\
   execMessage channel_ msg w =
     registerSignal (field msg "id") (field (field msg "args") "sig") w) \/
  (field msg "cmd" = VString "TexToMml" /\ nullish (field msg "args") = false /\
   execMessage channel_ msg w =
     texToMml (field msg "id") (field (field msg "args") "alt")
       (field (field msg "args") "id") w).
Proof.
  destruct (nullish msg) eqn:Hm.
  { left. split; [done|]. by apply execMessage_nullish. }
  right.
  destruct (field msg "cmd") as [| | | |s|] eqn:Hc;
    try (left; split; [done|]; split;
         [intros ? _; congruence | apply execMessage_unknown; [done|intros ? _; congruence]]).
  destruct (decide (s = "Active")) as [->|].
  { do 2 right; left. split; [done|]. by apply execMessage_Active. }
  destruct (decide (s = "AllJax")) as [->|].
  { do 3 right; left. split; [done|]. by apply execMessage_AllJax. }
  destruct (decide (s = "InjectScripts")) as [->|].
  { do 4 right; left. split; [done|]. by apply execMessage_InjectScripts. }
  destruct (decide (s ∈ reads_args)) as [Hr|Hr].
  - destruct (nullish (field msg "args")) eqn:Ha.
    { right; left. exists s. split_and!; [done..|]. by eapply execMessage_no_args. }
    unfold reads_args in Hr. rewrite !elem_of_cons in Hr.
    destruct Hr as [->|[->|[->|Hr]]]; [| | |by apply elem_of_nil in Hr].
    + do 5 right; left. split_and!; [done..|]. by apply execMessage_AsciiMathToMml.
    + do 6 right; left. split_and!; [done..|]. by apply execMessage_RegSig.
    + do 7 right. split_and!; [done..|]. by apply execMessage_TexToMml.
  - assert (forall name, name ∈ command_names -> VString s <> VString name) as Hun.
    { intros name Hn [= <-]. apply Hr.
      unfold command_names in Hn. unfold reads_args.
      rewrite !elem_of_cons in Hn. rewrite !elem_of_cons.
      destruct Hn as [?|[?|[?|[?|[?|[?|Hn]]]]]]; auto; done. }
    left. split; [done|]. split; [done|].
    apply execMessage_unknown; [done|]. by rewrite Hc.
Qed.

(** What a dispatch does depends on the message and on the presence flag
    only; it is added to whatever the world already holds. *)
Lemma execMessage_frame msg w :
  execMessage channel_ msg w =
  ((execMessage channel_ msg (fresh_page (mathjax_present w))).1,
   extend w (effects (execMessage channel_ msg (fresh_page (mathjax_present w))).2)
            (entered (execMessage channel_ msg (fresh_page (mathjax_present w))).2)).
Proof.
  destruct (execMessage_by_cases msg w)
    as [[Hm _]|[(Hm&Hu&_)|[(name&Hr&Hc&Ha&_)|[[Hc _]|[[Hc _]|[[Hc _]|
        [(Hc&Ha&_)|[(Hc&Ha&_)|(Hc&Ha&_)]]]]]]]].
  - rewrite !(execMessage_nullish _ _ Hm). simpl. by rewrite extend_nil.
  - rewrite !(execMessage_unknown _ _ _ Hm Hu). simpl. by rewrite extend_nil.
  - rewrite !(execMessage_no_args _ _ _ _ Hr Hc Ha). simpl. by rewrite extend_nil.
  - by rewrite !(execMessage_Active _ _ _ Hc), !isActive_run.
  - by rewrite !(execMessage_AllJax _ _ _ Hc), !getAllJax_run.
  - by rewrite !(execMessage_InjectScripts _ _ _ Hc), !injectScripts_run.
  - by rewrite !(execMessage_AsciiMathToMml _ _ _ Hc Ha), !asciiMathToMml_run.
  - by rewrite !(execMessage_RegSig _ _ _ Hc Ha), !registerSignal_run.
  - by rewrite !(execMessage_TexToMml _ _ _ Hc Ha), !texToMml_run.
Qed.

End Cases.

(** ** What one task adds to the world *)

Section Growth.

Variable channel_ : MessageChannel.

Lemma emitted_extend w new hs : emitted (extend w new hs) = emitted w ++ omap posted new.
Proof. apply emitted_app. Qed.

Lemma execMessage_adds msg w :
  exists new hs,
    (execMessage channel_ msg w).2 = extend w new hs /\
    Forall (fun e => setup_effect e = false) new /\
    length (omap posted new) <= 1 /\
    (field msg "cmd" <> VString "Active" -> omap posted new = []).
Proof.
  destruct (execMessage_by_cases channel_ msg w)
    as [[_ H]|[(_&_&H)|[(name&_&_&_&H)|[[Hc H]|[[Hc H]|[[Hc H]|
        [(Hc&_&H)|[(Hc&_&H)|(Hc&_&H)]]]]]]]]; rewrite H.
  - exists [], []. rewrite extend_nil. split_and!; [done|constructor|simpl; lia|done].
  - exists [], []. rewrite extend_nil. split_and!; [done|constructor|simpl; lia|done].
  - exists [], []. rewrite extend_nil. split_and!; [done|constructor|simpl; lia|done].
  - rewrite isActive_run. eexists _, _. split; [reflexivity|].
    split_and!; [by repeat apply List.Forall_cons|simpl; lia|congruence].
  - rewrite getAllJax_run. eexists _, _. split; [reflexivity|].
    split_and!; [by repeat apply List.Forall_cons|simpl; lia|done].
  - rewrite injectScripts_run. eexists _, _. split; [reflexivity|].
    split_and!; [by repeat apply List.Forall_cons|simpl; lia|done].
  - rewrite asciiMathToMml_run. eexists _, _. split; [reflexivity|].
    split_and!; [by repeat apply List.Forall_cons|simpl; lia|done].
  - rewrite registerSignal_run. eexists _, _. split; [reflexivity|].
    split_and!; [by repeat apply List.Forall_cons|simpl; lia|done].
  - rewrite texToMml_run. eexists _, _. split; [reflexivity|].
    split_and!; [by repeat apply List.Forall_cons|simpl; lia|done].
Qed.

Lemma call_continuation_run k arguments w :
  call_continuation channel_ k arguments w =
  (Normal tt, extend w
     [PortPostMessage (port1 channel_)
        (node_envelope (continuation_id k) (argument 0 arguments) (continuation_element k))]
     []).
Proof.
  destruct k as [K E|K E]; unfold call_continuation;
    rewrite (call_callback_run channel_ K); unfold extend; by rewrite app_nil_r.
Qed.

Lemma call_callback_extend f arguments w :
  call_callback channel_ f arguments w =
  (Normal tt, extend w [PortPostMessage (port1 channel_) (forwarded arguments f)] []).
Proof.
  destruct f as [K]. rewrite (call_callback_run channel_ K).
  unfold extend. by rewrite app_nil_r.
Qed.

(** A task leaves the channels alone and adds requests, none of them a
    setup request, at most one of them a post. *)
Lemma handle_adds ev w :
  exists present new hs,
    (handle channel_ ev w).2 =
      mkWorld present (channels w) (effects w ++ new) (entered w ++ hs) /\
    Forall (fun e => setup_effect e = false) new /\
    length (omap posted new) <= 1.
Proof.
  destruct ev as [msg|f arguments|k arguments|present]; cbn [handle].
  - destruct (onmessage (port1 channel_) w) as [[]|].
    + unfold call_listener, mbind, M_bind. rewrite get_prop_field by done.
      change (field (VObject {["data" := msg]}) "data") with msg.
      destruct (execMessage_adds msg w) as (new & hs & -> & Hs & Hl & _).
      by exists (mathjax_present w), new, hs.
    + exists (mathjax_present w), [], []. rewrite !app_nil_r.
      split_and!; [by destruct w|constructor|simpl; lia].
  - rewrite call_callback_extend. eexists _, _, _. split; [reflexivity|].
    split; [by repeat apply List.Forall_cons|simpl; lia].
  - rewrite call_continuation_run. eexists _, _, _. split; [reflexivity|].
    split; [by repeat apply List.Forall_cons|simpl; lia].
  - exists present, [], []. rewrite !app_nil_r. split_and!; [done|constructor|simpl; lia].
Qed.

End Growth.

(** ** Further properties of the dispatch *)

Section DispatchFacts.

Variable channel_ : MessageChannel.

(** X1: the bridge keeps no state between messages.  In two worlds with the
    same presence flag the same message has the same outcome, enters the same
    handler and adds the same requests, whatever was handled before. *)
Theorem dispatch_keeps_no_state msg w1 w2 :
  mathjax_present w1 = mathjax_present w2 ->
  exists c new hs,
    execMessage channel_ msg w1 = (c, extend w1 new hs) /\
    execMessage channel_ msg w2 = (c, extend w2 new hs).
Proof.
  intros Hp.
  rewrite (execMessage_frame channel_ msg w1), (execMessage_frame channel_ msg w2), Hp.
  by eexists _, _, _.
Qed.

(** X2: [execMessage] fails before a handler is entered in exactly two
    situations: the message itself is [undefined] or [null] (l.73), or the
    command is AsciiMathToMml, RegSig or TexToMml and [args] is [undefined] or
    [null] (l.82, l.88, l.91).  It then throws a TypeError and has requested
    and posted nothing.  In every other case the message is dropped, or the
    handler of its command is entered, so that a later error can only come
    from what that handler calls. *)
Theorem dispatch_faults_before_handler msg w :
  let unreadable :=
    nullish msg = true \/
    exists name, name ∈ reads_args /\ field msg "cmd" = VString name /\
                 nullish (field msg "args") = true in
  (unreadable -> execMessage channel_ msg w = (Throw TypeError, w)) /\
  (~ unreadable ->
   ((forall name, name ∈ command_names -> field msg "cmd" <> VString name) /\
    execMessage channel_ msg w = (Normal tt, w)) \/
   (exists name h,
      name ∈ command_names /\ field msg "cmd" = VString name /\
      handler_of name msg = Some h /\
      entered (execMessage channel_ msg w).2 = entered w ++ [h])) /\
  (((exists e, (execMessage channel_ msg w).1 = Throw e) /\
    entered (execMessage channel_ msg w).2 = entered w) <-> unreadable).
Proof.
  intros unreadable.
  assert (forall (l : list handler_call) h, l <> l ++ [h]) as Hgrow.
  { intros l h Heq. apply (f_equal length) in Heq. rewrite length_app in Heq.
    simpl in Heq. lia. }
  assert (forall name, name ∈ command_names <-> 
            name = "Active" \/ name = "AllJax" \/ name = "AsciiMathToMml" \/
            name = "InjectScripts" \/ name = "RegSig" \/ name = "TexToMml") as Hnames.
  { intros name. unfold command_names. rewrite !elem_of_cons.
    split; [intros [?|[?|[?|[?|[?|[?|Hn]]]]]]; auto 10; by apply elem_of_nil in Hn
           |intros [?|[?|[?|[?|[?|?]]]]]; auto 10]. }
  destruct (execMessage_by_cases channel_ msg w)
    as [[Hm H]|[(Hm&Hu&H)|[(name&Hr&Hc&Ha&H)|[[Hc H]|[[Hc H]|[[Hc H]|
        [(Hc&Ha&H)|[(Hc&Ha&H)|(Hc&Ha&H)]]]]]]]].
  - assert unreadable as Hf by (by left).
    split_and!; [done|done|]. rewrite H. split; [done|]. intros _. split; [by eexists|done].
  - assert (~ unreadable) as Hf.
    { intros [Hm'|(name&Hr&Hc&_)]; [congruence|]. eapply Hu; [|exact Hc].
      apply Hnames. unfold reads_args in Hr. rewrite !elem_of_cons in Hr.
      destruct Hr as [?|[?|[?|Hr]]]; auto 10. by apply elem_of_nil in Hr. }
    split_and!; [done|by left|]. rewrite H. split; [|done]. by intros [[e [=]] _].
  - assert unreadable as Hf by (right; by exists name).
    split_and!; [done|done|]. rewrite H. split; [done|]. intros _. split; [by eexists|done].
  - assert (~ unreadable) as Hf.
    { pose proof (field_string_object _ _ _ Hc).
      intros [Hm'|(name&Hr&Hc'&_)]; [congruence|].
      rewrite Hc in Hc'. injection Hc' as <-.
      unfold reads_args in Hr. rewrite !elem_of_cons in Hr.
      destruct Hr as [?|[?|[?|Hr]]]; try done. by apply elem_of_nil in Hr. }
    rewrite H, isActive_run. split_and!; [done| |].
    + intros _. right. exists "Active". eexists. split_and!; [|done..].
      apply Hnames. auto 10.
    + split; [|done]. intros [_ Heq]. cbn [snd entered] in Heq.
      symmetry in Heq. by apply Hgrow in Heq.
  - assert (~ unreadable) as Hf.
    { pose proof (field_string_object _ _ _ Hc).
      intros [Hm'|(name&Hr&Hc'&_)]; [congruence|].
      rewrite Hc in Hc'. injection Hc' as <-.
      unfold reads_args in Hr. rewrite !elem_of_cons in Hr.
      destruct Hr as [?|[?|[?|Hr]]]; try done. by apply elem_of_nil in Hr. }
    rewrite H, getAllJax_run. split_and!; [done| |].
    + intros _. right. exists "AllJax". eexists. split_and!; [|done..].
      apply Hnames. auto 10.
    + split; [|done]. intros [_ Heq]. cbn [snd entered] in Heq.
      symmetry in Heq. by apply Hgrow in Heq.
  - assert (~ unreadable) as Hf.
    { pose proof (field_string_object _ _ _ Hc).
      intros [Hm'|(name&Hr&Hc'&_)]; [congruence|].
      rewrite Hc in Hc'. injection Hc' as <-.
      unfold reads_args in Hr. rewrite !elem_of_cons in Hr.
      destruct Hr as [?|[?|[?|Hr]]]; try done. by apply elem_of_nil in Hr. }
    rewrite H, injectScripts_run. split_and!; [done| |].
    + intros _. right. exists "InjectScripts". eexists. split_and!; [|done..].
      apply Hnames. auto 10.
    + split; [|done]. intros [_ Heq]. cbn [snd entered] in Heq.
      symmetry in Heq. by apply Hgrow in Heq.
  - assert (~ unreadable) as Hf.
    { pose proof (field_string_object _ _ _ Hc).
      intros [Hm'|(name&_&_&Ha')]; congruence. }
    rewrite H, asciiMathToMml_run. split_and!; [done| |].
    + intros _. right. exists "AsciiMathToMml". eexists. split_and!; [|done..].
      apply Hnames. auto 10.
    + split; [|done]. intros [_ Heq]. cbn [snd entered] in Heq.
      symmetry in Heq. by apply Hgrow in Heq.
  - assert (~ unreadable) as Hf.
    { pose proof (field_string_object _ _ _ Hc).
      intros [Hm'|(name&_&_&Ha')]; congruence. }
    rewrite H, registerSignal_run. split_and!; [done| |].
    + intros _. right. exists "RegSig". eexists. split_and!; [|done..].
      apply Hnames. auto 10.
    + split; [|done]. intros [_ Heq]. cbn [snd entered] in Heq.
      symmetry in Heq. by apply Hgrow in Heq.
  - assert (~ unreadable) as Hf.
    { pose proof (field_string_object _ _ _ Hc).
      intros [Hm'|(name&_&_&Ha')]; congruence. }
    rewrite H, texToMml_run. split_and!; [done| |].
    + intros _. right. exists "TexToMml". eexists. split_and!; [|done..].
      apply Hnames. auto 10.
    + split; [|done]. intros [_ Heq]. cbn [snd entered] in Heq.
      symmetry in Heq. by apply Hgrow in Heq.
Qed.

(** X3: Active is the only command answered within the dispatch.  For any
    other message, known or not, well formed or not, [execMessage] returns
    (or throws) without having posted anything. *)
Theorem only_active_answers_at_once msg w :
  field msg "cmd" <> VString "Active" ->
  emitted (execMessage channel_ msg w).2 = emitted w.
Proof.
  intros Hc. destruct (execMessage_adds channel_ msg w) as (new & hs & -> & _ & _ & Hnone).
  rewrite emitted_extend, (Hnone Hc). by rewrite app_nil_r.
Qed.

(** X4: an InjectScripts message asks the collaborator to inject the
    configuration script and then the load script, in that order and once
    each, whatever its [id] and [args].  Nothing is posted and no function is
    handed to the collaborator, so nothing can be posted for it later. *)
Theorem inject_scripts_in_order msg w :
  field msg "cmd" = VString "InjectScripts" ->
  exists w',
    execMessage channel_ msg w = (Normal tt, w') /\
    effects w' = effects w ++ [ExtInjectConfigScript; ExtInjectLoadScript] /\
    emitted w' = emitted w /\
    omap handed_callback (effects w') = omap handed_callback (effects w) /\
    omap requested_continuation (effects w') = omap requested_continuation (effects w).
Proof.
  intros Hc. rewrite (execMessage_InjectScripts _ _ _ Hc), injectScripts_run.
  eexists. split; [done|]. split; [done|]. split_and!.
  - rewrite emitted_app. simpl. by rewrite app_nil_r.
  - simpl. rewrite omap_app. simpl. by rewrite app_nil_r.
  - simpl. rewrite omap_app. simpl. by rewrite app_nil_r.
Qed.

(** X5: the envelopes the bridge posts, taken as incoming messages.  A
    NodeMml envelope is no command and is dropped without a trace; an Active
    envelope is itself an Active command and is answered with a new Active
    envelope of the same id, carrying the presence flag of the moment. *)
Theorem own_envelopes_as_commands callbackId w :
  (forall mml id,
     execMessage channel_ (node_envelope callbackId mml id) w = (Normal tt, w)) /\
  (forall status,
     execMessage channel_ (active_envelope callbackId status) w =
     (Normal tt,
      extend w
        [ExtIsActive;
         PortPostMessage (port1 channel_) (active_envelope callbackId (mathjax_present w))]
        [Enter_isActive callbackId])).
Proof.
  split.
  - intros mml id. apply execMessage_unknown; [done|].
    intros name Hn Hc. injection Hc as <-.
    unfold command_names in Hn. rewrite !elem_of_cons in Hn.
    destruct Hn as [?|[?|[?|[?|[?|[?|Hn]]]]]]; try done. by apply elem_of_nil in Hn.
  - intros status.
    rewrite (execMessage_Active channel_ (active_envelope callbackId status) w eq_refl).
    change (field (active_envelope callbackId status) "id") with callbackId.
    by rewrite isActive_run.
Qed.

End DispatchFacts.

Lemma dispatch_keeps_no_state_witness :
  mathjax_present (fresh_page true) = mathjax_present (load (fresh_page true)).2 /\
  exists c new hs,
    execMessage (Channel 0) tex_request (fresh_page true)
      = (c, extend (fresh_page true) new hs) /\
    execMessage (Channel 0) tex_request (load (fresh_page true)).2
      = (c, extend (load (fresh_page true)).2 new hs).
Proof.
  split; [reflexivity|].
  apply (dispatch_keeps_no_state (Channel 0) tex_request (fresh_page true)
           (load (fresh_page true)).2).
  reflexivity.
Defined.

Lemma only_active_answers_at_once_witness :
  field tex_request "cmd" <> VString "Active" /\
  emitted (execMessage (Channel 0) tex_request (load (fresh_page true)).2).2
    = emitted (load (fresh_page true)).2.
Proof.
  assert (field tex_request "cmd" <> VString "Active") as Hc by discriminate.
  split; [exact Hc|].
  exact (only_active_answers_at_once (Channel 0) tex_request (load (fresh_page true)).2 Hc).
Defined.

Lemma inject_scripts_in_order_witness :
  field inject_request "cmd" = VString "InjectScripts" /\
  exists w',
    execMessage (Channel 0) inject_request (fresh_page true) = (Normal tt, w') /\
    effects w' = [ExtInjectConfigScript; ExtInjectLoadScript] /\
    emitted w' = [] /\
    omap handed_callback (effects w') = [] /\
    omap requested_continuation (effects w') = [].
Proof.
  split; [reflexivity|].
  apply (inject_scripts_in_order (Channel 0) inject_request (fresh_page true)).
  reflexivity.
Defined.

(** ** Further properties of runs *)

Section RunFacts.

Variable channel_ : MessageChannel.

Lemma run_cons ev evs w :
  run channel_ (ev :: evs) w = run channel_ evs (handle channel_ ev w).2.
Proof. reflexivity. Qed.

(** Over a run: the channels stay, requests and handler entries are added
    at the end, none of the added requests is a setup request, and there are
    at most as many posts among them as there were tasks. *)
Lemma run_adds evs w :
  exists present new hs,
    run channel_ evs w =
      mkWorld present (channels w) (effects w ++ new) (entered w ++ hs) /\
    Forall (fun e => setup_effect e = false) new /\
    length (omap posted new) <= length evs.
Proof.
  revert w. induction evs as [|ev evs IH]; intros w.
  - exists (mathjax_present w), [], []. rewrite !app_nil_r.
    split_and!; [by destruct w|constructor|simpl; lia].
  - rewrite run_cons.
    destruct (handle_adds channel_ ev w) as (p1 & new1 & hs1 & -> & Hs1 & Hl1).
    destruct (IH (mkWorld p1 (channels w) (effects w ++ new1) (entered w ++ hs1)))
      as (p2 & new2 & hs2 & -> & Hs2 & Hl2).
    exists p2, (new1 ++ new2), (hs1 ++ hs2). cbn [channels effects entered].
    rewrite <- !app_assoc. split_and!.
    + done.
    + by apply Forall_app.
    + rewrite omap_app, length_app. simpl. lia.
Qed.

End RunFacts.

(** X6: the bridge never posts more than it is made to.  Every task, be it
    an arriving message or a call by the collaborator, posts at most one
    Result Envelope, so a run of n tasks posts at most n. *)
Theorem at_most_one_envelope_per_task channel_ evs w :
  length (emitted (run channel_ evs w)) <= length (emitted w) + length evs.
Proof.
  destruct (run_adds channel_ evs w) as (p & new & hs & -> & _ & Hl).
  rewrite emitted_app, length_app. lia.
Qed.

(** X8: handling messages and calls never touches the channel setup.  Over
    any run no channel is created, no port is handed over again and no
    [onmessage] listener is assigned; so after the script is loaded there is
    one channel throughout, its port2 has been handed over exactly once, and
    the listener of its port1 is the one that dispatches. *)
Theorem setup_is_never_redone channel_ evs w :
  (channels (run channel_ evs w) = channels w /\
   omap broadcast_ports (effects (run channel_ evs w)) =
     omap broadcast_ports (effects w) /\
   forall p, onmessage p (run channel_ evs w) = onmessage p w) /\
  (forall present,
     let loaded := run (Channel 0) evs (load (fresh_page present)).2 in
     channels loaded = 1 /\
     omap broadcast_ports (effects loaded) = [[port2 (Channel 0)]] /\
     onmessage (port1 (Channel 0)) loaded = Some ExecMessageListener).
Proof.
  assert (forall ch evs' w',
    channels (run ch evs' w') = channels w' /\
    omap broadcast_ports (effects (run ch evs' w')) = omap broadcast_ports (effects w') /\
    forall p, onmessage p (run ch evs' w') = onmessage p w') as Hkeep.
  { clear. intros ch evs w.
    destruct (run_adds ch evs w) as (p & new & hs & -> & Hs & _).
    cbn [channels effects].
    assert (omap broadcast_ports new = [] /\
            forall q, omap (assigned_listener q) new = []) as [Hb Hl].
    { induction Hs as [|e new He _ [IH1 IH2]]; [done|].
      split; [|intros q]; simpl; destruct e; try discriminate He; simpl; auto. }
    split; [done|]. split.
    - by rewrite omap_app, Hb, app_nil_r.
    - intros q. unfold onmessage. cbn [effects]. by rewrite omap_app, Hl, app_nil_r. }
  split; [apply Hkeep|].
  intros present loaded. unfold loaded.
  destruct (Hkeep (Channel 0) evs (load (fresh_page present)).2) as (-> & -> & ->).
  done.
Qed.

(** X9: once the script is loaded, a message that arrives on port1 is
    dispatched by [execMessage], faults included, whatever happened
    before. *)
Theorem arriving_message_is_dispatched present evs msg :
  let w := run (Channel 0) evs (load (fresh_page present)).2 in
  handle (Channel 0) (MessageArrives msg) w = execMessage (Channel 0) msg w.
Proof.
  intros w. cbn [handle].
  assert (onmessage (port1 (Channel 0)) w = Some ExecMessageListener) as ->.
  { unfold w. destruct (run_adds (Channel 0) evs (load (fresh_page present)).2)
      as (p & new & hs & -> & Hs & _).
    unfold onmessage. cbn [effects]. rewrite omap_app.
    assert (omap (assigned_listener (port1 (Channel 0))) new = []) as ->.
    { induction Hs as [|e new He _ IH]; [done|].
      simpl; destruct e; try discriminate He; simpl; auto. }
    done. }
  unfold call_listener, mbind, M_bind. by rewrite get_prop_field.
Qed.

(** X10: Result Envelopes leave in the order in which the collaborator
    calls back, not in the order of the requests.  Over a run of calls (and
    changes of the presence flag) each call posts its one envelope: a callback
    forwards the markup and element id it is called with, a continuation the
    markup it is called with and the element id of its request. *)
Theorem envelopes_follow_call_order channel_ evs w :
  Forall (fun ev => message_event ev = false) evs ->
  emitted (run channel_ evs w) = emitted w ++ omap call_envelope evs.
Proof.
  revert w. induction evs as [|ev evs IH]; intros w Hevs.
  - simpl. by rewrite app_nil_r.
  - apply List.Forall_cons_iff in Hevs as [Hev Hevs].
    rewrite run_cons, (IH _ Hevs).
    destruct ev as [msg|f arguments|k arguments|present]; [discriminate Hev|..];
      cbn [handle omap call_envelope].
    + rewrite (call_callback_extend channel_). cbn [snd]. rewrite emitted_extend. simpl.
      by rewrite <- app_assoc.
    + rewrite (call_continuation_run channel_). cbn [snd]. rewrite emitted_extend. simpl.
      by rewrite <- app_assoc.
    + done.
Qed.

(** ** Correlation ids *)

Section Ids.

Variable channel_ : MessageChannel.

Lemma field_envelope_id cmd callbackId args : field (envelope cmd callbackId args) "id" = callbackId.
Proof. reflexivity. Qed.

Lemma ids_within_mono ids ids' e :
  (forall K, K ∈ ids -> K ∈ ids') -> ids_within ids e -> ids_within ids' e.
Proof. intros Hsub. destruct e; simpl; auto. Qed.

(** What a dispatch adds carries the id of the message and no other. *)
Lemma execMessage_ids msg w :
  exists new hs,
    (execMessage channel_ msg w).2 = extend w new hs /\
    Forall (ids_within [field msg "id"]) new.
Proof.
  assert (field msg "id" ∈ [field msg "id"]) as Hin by apply list_elem_of_here.
  destruct (execMessage_by_cases channel_ msg w)
    as [[_ H]|[(_&_&H)|[(name&_&_&_&H)|[[Hc H]|[[Hc H]|[[Hc H]|
        [(Hc&_&H)|[(Hc&_&H)|(Hc&_&H)]]]]]]]]; rewrite H.
  - exists [], []. rewrite extend_nil. split; [done|constructor].
  - exists [], []. rewrite extend_nil. split; [done|constructor].
  - exists [], []. rewrite extend_nil. split; [done|constructor].
  - rewrite isActive_run. eexists _, _. split; [reflexivity|].
    repeat apply List.Forall_cons; [done| |apply List.Forall_nil].
    unfold ids_within, active_envelope. by rewrite field_envelope_id.
  - rewrite getAllJax_run. eexists _, _. split; [reflexivity|].
    by repeat apply List.Forall_cons.
  - rewrite injectScripts_run. eexists _, _. split; [reflexivity|].
    by repeat apply List.Forall_cons.
  - rewrite asciiMathToMml_run. eexists _, _. split; [reflexivity|].
    by repeat apply List.Forall_cons.
  - rewrite registerSignal_run. eexists _, _. split; [reflexivity|].
    by repeat apply List.Forall_cons.
  - rewrite texToMml_run. eexists _, _. split; [reflexivity|].
    by repeat apply List.Forall_cons.
Qed.

Lemma ids_within_handed ids es f :
  Forall (ids_within ids) es -> f ∈ omap handed_callback es -> callback_id f ∈ ids.
Proof.
  intros Hes Hf. apply list_elem_of_omap in Hf as (e & He & Hh).
  rewrite List.Forall_forall in Hes. apply list_elem_of_In in He.
  specialize (Hes e He). destruct e; try discriminate Hh; by injection Hh as <-.
Qed.

Lemma ids_within_requested ids es k :
  Forall (ids_within ids) es -> k ∈ omap requested_continuation es ->
  continuation_id k ∈ ids.
Proof.
  intros Hes Hk. apply list_elem_of_omap in Hk as (e & He & Hh).
  rewrite List.Forall_forall in Hes. apply list_elem_of_In in He.
  specialize (Hes e He). destruct e; try discriminate Hh; by injection Hh as <-.
Qed.

Lemma handle_ids ids ev w :
  Forall (ids_within ids) (effects w) ->
  allowed ev w ->
  Forall (ids_within (ids ++ omap asked_id [ev])) (effects (handle channel_ ev w).2).
Proof.
  intros Hw Hev.
  assert (Forall (ids_within (ids ++ omap asked_id [ev])) (effects w)) as Hw'.
  { eapply List.Forall_impl; [|exact Hw]. intros e. apply ids_within_mono.
    intros K HK. apply elem_of_app. by left. }
  destruct ev as [msg|f arguments|k arguments|present]; cbn [handle].
  - destruct (onmessage (port1 channel_) w) as [[]|]; [|done].
    unfold call_listener, mbind, M_bind. rewrite get_prop_field by done.
    change (field (VObject {["data" := msg]}) "data") with msg.
    destruct (execMessage_ids msg w) as (new & hs & -> & Hnew).
    cbn [extend effects]. apply Forall_app. split; [done|].
    eapply List.Forall_impl; [|exact Hnew]. intros e. apply ids_within_mono.
    intros K HK. apply elem_of_app. by right.
  - rewrite call_callback_extend. cbn [snd extend effects].
    apply Forall_app. split; [done|].
    apply List.Forall_cons; [|apply List.Forall_nil].
    destruct f as [K]. unfold ids_within, forwarded, node_envelope.
    rewrite field_envelope_id. apply elem_of_app. left.
    by apply (ids_within_handed ids (effects w) (MathmlCallback K)).
  - rewrite call_continuation_run. cbn [snd extend effects].
    apply Forall_app. split; [done|].
    apply List.Forall_cons; [|apply List.Forall_nil].
    unfold ids_within, node_envelope. rewrite field_envelope_id.
    apply elem_of_app. left. by apply (ids_within_requested ids (effects w)).
  - done.
Qed.

Lemma run_ids evs : forall ids w,
  Forall (ids_within ids) (effects w) ->
  legal channel_ evs w ->
  Forall (ids_within (ids ++ omap asked_id evs)) (effects (run channel_ evs w)).
Proof.
  induction evs as [|ev evs IH]; intros ids w Hw Hl.
  - simpl. by rewrite app_nil_r.
  - destruct Hl as [Hev Hl]. rewrite run_cons.
    pose proof (IH _ _ (handle_ids ids ev w Hw Hev) Hl) as Hrun.
    rewrite <- app_assoc in Hrun.
    by replace (omap asked_id (ev :: evs)) with (omap asked_id [ev] ++ omap asked_id evs)
      by (by rewrite <- omap_app).
Qed.

Lemma ids_within_posted ids es :
  Forall (ids_within ids) es -> Forall (fun m => field m "id" ∈ ids) (omap posted es).
Proof.
  induction 1 as [|e es He _ IH]; [constructor|].
  simpl. destruct e; simpl; try exact IH. by constructor.
Qed.

End Ids.

(** X11: the bridge never makes up a correlation id.  After the script is
    loaded, and as long as the collaborator calls only functions it was
    given, the [id] of every Result Envelope posted is the [id] of a message
    that arrived earlier in the run. *)
Theorem answers_carry_asked_ids present evs :
  legal (Channel 0) evs (load (fresh_page present)).2 ->
  Forall (fun m => field m "id" ∈ omap asked_id evs)
    (emitted (run (Channel 0) evs (load (fresh_page present)).2)).
Proof.
  intros Hl.
  assert (Forall (ids_within []) (effects (load (fresh_page present)).2)) as H0
    by (by repeat apply List.Forall_cons).
  pose proof (run_ids (Channel 0) evs [] _ H0 Hl) as Hrun.
  by apply ids_within_posted in Hrun.
Qed.

Lemma answers_carry_asked_ids_witness :
  legal (Channel 0) request_then_answer (load (fresh_page true)).2 /\
  Forall (fun m => field m "id" ∈ omap asked_id request_then_answer)
    (emitted (run (Channel 0) request_then_answer (load (fresh_page true)).2)).
Proof.
  assert (legal (Channel 0) request_then_answer (load (fresh_page true)).2) as Hl.
  { split; [exact I|]. split; [apply list_elem_of_here|exact I]. }
  split; [exact Hl|].
  exact (answers_carry_asked_ids true request_then_answer Hl).
Defined.

Lemma envelopes_follow_call_order_witness :
  Forall (fun ev => message_event ev = false) late_calls /\
  emitted (run (Channel 0) late_calls (load (fresh_page true)).2) =
    [ node_envelope (VString "2") (VString "<math>b</math>") (VString "elemB");
      node_envelope (VString "1") (VString "<math>a</math>") (VString "elemA") ].
Proof.
  assert (Forall (fun ev => message_event ev = false) late_calls) as Hc
    by (repeat apply List.Forall_cons; try reflexivity; apply List.Forall_nil).
  split; [exact Hc|].
  exact (envelopes_follow_call_order (Channel 0) late_calls (load (fresh_page true)).2 Hc).
Defined.

(** X12: every Result Envelope goes out on port1 of the one channel.  After
    the script is loaded, whatever arrives and whatever the collaborator
    calls, the bridge posts on no other port, and in particular never on the
    port2 it handed over. *)
Theorem posts_go_out_on_port1 present evs :
  Forall (fun p => p = port1 (Channel 0))
    (omap posted_on (effects (run (Channel 0) evs (load (fresh_page present)).2))).
Proof.
  pose proof (run_effects (Channel 0) evs _ (load_effects present)) as Hrun.
  induction Hrun as [|e es He _ IH]; [constructor|].
  simpl. destruct He; simpl; try exact IH; by constructor.
Qed.
